(** * AgentsLocate API: request validation and error classification

    A shallow embedding of the HTTP boundary of the repository
    ([core/models], [apps/api/exceptions], [apps/api/utils/error_handlers],
    [apps/api/routes], [apps/api/services], [apps/api/simulation_main]) and
    the properties its specification states about it.

    Conventions.
    - A Python [str] is a [string]; [len] is [String.length].
    - A Python [int] is a [Z].  A Python [float] is a [float]: a finite
      value, kept as a rational ([Q]) so that literals are exact, one of
      the two infinities, or not-a-number; comparisons with not-a-number
      are false, as in Python and in pydantic's bound checks.
    - A raised exception is a value of [exn]: its class and the text that
      [str(error)] yields.  A computation that may raise is a [result].
    - Regular expressions are kept as syntax trees transcribed from the
      pattern literals and run by one backtracking matcher with the two
      end-of-text conventions in use: Python's [re] (the [field_validator]
      of [IngestRequest]) and the engine behind pydantic's [pattern=]. *)

From Stdlib Require Import String Ascii List Bool Arith ZArith QArith Lia.
From Stdlib Require Import DecimalString.
Import ListNotations.
Set Warnings "-register-all,-abstract-large-number".
Open Scope string_scope.
Open Scope bool_scope.

Set Implicit Arguments.

(** ** Strings *)

Module Str.

(** [needle in hay] *)
Fixpoint contains (needle hay : string) : bool :=
  String.prefix needle hay
  || match hay with
     | EmptyString => false
     | String _ hay' => contains needle hay'
     end.

(** [c * n] for a one-character string *)
Fixpoint repeat (c : ascii) (n : nat) : string :=
  match n with
  | O => EmptyString
  | S n' => String c (repeat c n')
  end.

(** [min_length <= len(s) <= max_length] *)
Definition length_between (lo hi : nat) (s : string) : bool :=
  (lo <=? String.length s)%nat && (String.length s <=? hi)%nat.

End Str.

(** ** Regular expressions *)

Module Regex.

Inductive regex : Type :=
| Eps                                  (* the empty pattern              *)
| Chr (c : ascii)                      (* a literal character            *)
| Cls (ranges : list (ascii * ascii))  (* [x-y...]; a single c is (c, c) *)
| Cat (r1 r2 : regex)                  (* r1 r2                          *)
| Alt (r1 r2 : regex)                  (* r1|r2                          *)
| Plus (r : regex)                     (* r+                             *)
| Opt (r : regex)                      (* r?                             *)
| Rep (n : nat) (r : regex)            (* r{n}                           *)
| Bol                                  (* ^                              *)
| Eol.                                 (* $                              *)

(** The two engines differ, for the patterns of this repository, in [$]:
    Python's [re] also lets it match just before a final newline. *)
Inductive flavour : Type := PythonRe | RustRegex.

(** A matcher position: characters consumed so far, and the text left. *)
Definition pos : Type := (nat * string)%type.

Definition in_range (c : ascii) (r : ascii * ascii) : bool :=
  (nat_of_ascii (fst r) <=? nat_of_ascii c)%nat
  && (nat_of_ascii c <=? nat_of_ascii (snd r))%nat.

Definition in_class (ranges : list (ascii * ascii)) (c : ascii) : bool :=
  existsb (in_range c) ranges.

Definition newline : ascii := ascii_of_nat 10.

Definition at_eol (fl : flavour) (rest : string) : bool :=
  match fl with
  | RustRegex => String.eqb rest EmptyString
  | PythonRe =>
      String.eqb rest EmptyString
      || String.eqb rest (String newline EmptyString)
  end.

(** One or more rounds of [step]; a round that consumes nothing adds no
    new position and is not repeated. *)
Fixpoint plus_iter (step : pos -> list pos) (fuel : nat) (p : pos) : list pos :=
  match fuel with
  | O => []
  | S fuel' =>
      let once := step p in
      flat_map
        (fun q =>
           (if (String.length (snd q) <? String.length (snd p))%nat
            then plus_iter step fuel' q else [])
           ++ [q])%list
        once
  end.

Fixpoint rep_iter (step : pos -> list pos) (n : nat) (ps : list pos) : list pos :=
  match n with
  | O => ps
  | S n' => rep_iter step n' (flat_map step ps)
  end.

(** Every position at which a match of [r] that starts at [p] can end, in
    the order a backtracking engine tries them. *)
Fixpoint ends (fl : flavour) (r : regex) (p : pos) : list pos :=
  match r with
  | Eps => [p]
  | Chr c =>
      match snd p with
      | String a rest => if Ascii.eqb a c then [(S (fst p), rest)] else []
      | EmptyString => []
      end
  | Cls ranges =>
      match snd p with
      | String a rest => if in_class ranges a then [(S (fst p), rest)] else []
      | EmptyString => []
      end
  | Cat r1 r2 => flat_map (ends fl r2) (ends fl r1 p)
  | Alt r1 r2 => (ends fl r1 p ++ ends fl r2 p)%list
  | Plus r' => plus_iter (ends fl r') (S (String.length (snd p))) p
  | Opt r' => (ends fl r' p ++ [p])%list
  | Rep n r' => rep_iter (ends fl r') n [p]
  | Bol => if (fst p =? 0)%nat then [p] else []
  | Eol => if at_eol fl (snd p) then [p] else []
  end.

Definition matches_at (fl : flavour) (r : regex) (p : pos) : bool :=
  negb (Nat.eqb (List.length (ends fl r p)) 0).

(** [re.match(pattern, s)]: a match that begins at the start of [s]. *)
Definition re_match (r : regex) (s : string) : bool :=
  matches_at PythonRe r (0%nat, s).

(** Unanchored search, as [Regex::is_match]: a match beginning anywhere. *)
Fixpoint search_from (fl : flavour) (r : regex) (n : nat) (s : string) : bool :=
  matches_at fl r (n, s)
  || match s with
     | EmptyString => false
     | String _ s' => search_from fl r (S n) s'
     end.

Definition is_match (r : regex) (s : string) : bool :=
  search_from RustRegex r 0 s.

(** A run of literal characters. *)
Fixpoint lit (s : string) : regex :=
  match s with
  | EmptyString => Eps
  | String c EmptyString => Chr c
  | String c s' => Cat (Chr c) (lit s')
  end.

(** What the matcher computes, stated as a relation: [Matches fl r p q]
    when [r] can match from position [p] to position [q]. *)
Inductive Matches (fl : flavour) : regex -> pos -> pos -> Prop :=
| M_eps p : Matches fl Eps p p
| M_chr c n rest : Matches fl (Chr c) (n, String c rest) (S n, rest)
| M_cls ranges a n rest :
    in_class ranges a = true ->
    Matches fl (Cls ranges) (n, String a rest) (S n, rest)
| M_cat r1 r2 p q u :
    Matches fl r1 p q -> Matches fl r2 q u -> Matches fl (Cat r1 r2) p u
| M_alt_left r1 r2 p q : Matches fl r1 p q -> Matches fl (Alt r1 r2) p q
| M_alt_right r1 r2 p q : Matches fl r2 p q -> Matches fl (Alt r1 r2) p q
| M_plus_once r p q : Matches fl r p q -> Matches fl (Plus r) p q
| M_plus_more r p q u :
    Matches fl r p q -> Matches fl (Plus r) q u -> Matches fl (Plus r) p u
| M_opt_some r p q : Matches fl r p q -> Matches fl (Opt r) p q
| M_opt_none r p : Matches fl (Opt r) p p
| M_rep_zero r p : Matches fl (Rep 0 r) p p
| M_rep_succ n r p q u :
    Matches fl r p q -> Matches fl (Rep n r) q u ->
    Matches fl (Rep (S n) r) p u
| M_bol rest : Matches fl Bol (0%nat, rest) (0%nat, rest)
| M_eol p : at_eol fl (snd p) = true -> Matches fl Eol p p.

(** A match from [p] to [q] consumes the text [w]. *)
Definition consumed (w : string) (p q : pos) : Prop :=
  snd p = w ++ snd q /\ fst q = (fst p + String.length w)%nat.

(** Every character of [w] is in the class. *)
Fixpoint all_in_class (ranges : list (ascii * ascii)) (w : string) : bool :=
  match w with
  | EmptyString => true
  | String a w' => in_class ranges a && all_in_class ranges w'
  end.

End Regex.

(** ** Python exceptions *)

Module Py.

(** A class: the module that defines it, its name and its direct bases
    ([object] is left out). *)
Inductive pyclass : Type :=
| PyClass (module name : string) (bases : list pyclass).

Definition class_bases (c : pyclass) : list pyclass :=
  match c with PyClass _ _ bs => bs end.

(** [c is d] *)
Fixpoint same_class (c d : pyclass) {struct c} : bool :=
  match c, d with
  | PyClass m n bases, PyClass m' n' bases' =>
      String.eqb m m' && String.eqb n n'
      && (fix same_bases (l l' : list pyclass) {struct l} : bool :=
            match l, l' with
            | [], [] => true
            | b :: l1, b' :: l1' => same_class b b' && same_bases l1 l1'
            | _, _ => false
            end) bases bases'
  end.

(** [issubclass(c, d)]: [d] is [c] or is reached through its bases. *)
Fixpoint issubclass (c d : pyclass) {struct c} : bool :=
  match c with
  | PyClass m n bases =>
      same_class (PyClass m n bases) d
      || existsb (fun b => issubclass b d) bases
  end.

(** A raised exception object, as far as the handlers look at it. *)
Record exn : Type := Exn {
  exn_class : pyclass;   (* type(error) *)
  exn_str : string       (* str(error)  *)
}.

Definition isinstance (error : exn) (c : pyclass) : bool :=
  issubclass (exn_class error) c.

Definition str (error : exn) : string := exn_str error.

(** The built-in classes the repository names or derives from. *)
Definition BaseException : pyclass := PyClass "builtins" "BaseException" [].
Definition Exception : pyclass := PyClass "builtins" "Exception" [BaseException].
Definition KeyboardInterrupt : pyclass :=
  PyClass "builtins" "KeyboardInterrupt" [BaseException].
Definition ValueError : pyclass := PyClass "builtins" "ValueError" [Exception].
Definition RuntimeError : pyclass := PyClass "builtins" "RuntimeError" [Exception].
Definition NotImplementedError : pyclass :=
  PyClass "builtins" "NotImplementedError" [RuntimeError].
Definition OSError : pyclass := PyClass "builtins" "OSError" [Exception].
Definition FileNotFoundError : pyclass :=
  PyClass "builtins" "FileNotFoundError" [OSError].
Definition PermissionError : pyclass :=
  PyClass "builtins" "PermissionError" [OSError].
Definition ConnectionError : pyclass :=
  PyClass "builtins" "ConnectionError" [OSError].

(** The outcome of a call: a value, or an exception on its way up. *)
Inductive result (A : Type) : Type :=
| Return (a : A)
| Raise (e : exn).

Arguments Return {A} a.
Arguments Raise {A} e.

Definition bind {A B : Type} (m : result A) (k : A -> result B) : result B :=
  match m with
  | Return a => k a
  | Raise e => Raise e
  end.

Definition returned {A : Type} (m : result A) : bool :=
  match m with Return _ => true | Raise _ => false end.

(** A [float]: a finite value, [float('inf')], [float('-inf')] or
    [float('nan')]. *)
Inductive float : Type :=
| Finite (q : Q)
| Infinity
| NegInfinity
| NaN.

(** [x < y] on floats; false as soon as one side is not-a-number. *)
Definition float_lt (x y : float) : bool :=
  match x, y with
  | Finite a, Finite b => negb (Qle_bool b a)
  | Finite _, Infinity => true
  | NegInfinity, Finite _ => true
  | NegInfinity, Infinity => true
  | _, _ => false
  end.

(** [x > y] on floats. *)
Definition float_gt (x y : float) : bool := float_lt y x.

End Py.

Export Py.

Notation "x <- m ;; k" := (Py.bind m (fun x => k))
  (at level 61, m at next level, right associativity).

(** ** JSON values and HTTP responses *)

Inductive json : Type :=
| JNull
| JBool (b : bool)
| JInt (z : Z)
| JFloat (x : float)
| JStr (s : string)
| JList (items : list json)
| JDict (fields : list (string * json)).

(** [JSONResponse(status_code=..., content=...)], and what FastAPI sends
    for a returned model or dict (status 200).  [content] is the value
    handed over, before it is rendered as JSON text. *)
Record JSONResponse : Type := {
  status_code : Z;
  content : json
}.

Module status.
Definition HTTP_200_OK : Z := 200.
Definition HTTP_400_BAD_REQUEST : Z := 400.
Definition HTTP_401_UNAUTHORIZED : Z := 401.
Definition HTTP_403_FORBIDDEN : Z := 403.
Definition HTTP_404_NOT_FOUND : Z := 404.
Definition HTTP_422_UNPROCESSABLE_ENTITY : Z := 422.
Definition HTTP_500_INTERNAL_SERVER_ERROR : Z := 500.
Definition HTTP_501_NOT_IMPLEMENTED : Z := 501.
End status.

(** ** pydantic: field constraints and validation errors *)

Module pydantic.

(** One line of a validation error: where, and which constraint. *)
Record ErrorDetail : Type := {
  loc : list string;
  type_ : string
}.

Definition ValidationError : pyclass :=
  PyClass "pydantic_core._pydantic_core" "ValidationError" [ValueError].

Definition string_of_nat (n : nat) : string :=
  DecimalString.NilEmpty.string_of_uint (Nat.to_uint n).

(** The exception a model constructor raises; of its text only the
    headline is kept. *)
Definition validation_error (title : string) (errs : list ErrorDetail) : exn :=
  let n := List.length errs in
  Exn ValidationError
      (string_of_nat n ++ " validation error"
       ++ (if (n =? 1)%nat then "" else "s") ++ " for " ++ title).

(** [str] field with [min_length] and [max_length]. *)
Definition check_length (field : string) (lo hi : nat) (v : string)
  : list ErrorDetail :=
  if (hi <? String.length v)%nat then
    [{| loc := [field]; type_ := "string_too_long" |}]
  else if (String.length v <? lo)%nat then
    [{| loc := [field]; type_ := "string_too_short" |}]
  else [].

(** [str] field with [pattern=]; pydantic hands the pattern to its
    default engine, which searches the value for a match. *)
Definition check_pattern (field : string) (pattern : Regex.regex) (v : string)
  : list ErrorDetail :=
  if Regex.is_match pattern v then []
  else [{| loc := [field]; type_ := "string_pattern_mismatch" |}].

(** list field with [max_items] (pydantic 2 reads it as [max_length]). *)
Definition max_items_ok {A : Type} (n : nat) (v : option (list A)) : bool :=
  match v with
  | None => true
  | Some items => (List.length items <=? n)%nat
  end.

(** [int] field with [ge=0]. *)
Definition check_ge0_int (field : string) (v : Z) : list ErrorDetail :=
  if (0 <=? v)%Z then []
  else [{| loc := [field]; type_ := "greater_than_equal" |}].

(** [float] field with [ge=0]: the value is refused when it is below the
    bound.  Infinities and not-a-number are admitted as values
    ([allow_inf_nan] is left at its default), so [float('nan')], which is
    below nothing, and [float('inf')] pass. *)
Definition check_ge0_float (field : string) (v : float) : list ErrorDetail :=
  if float_lt v (Finite 0) then
    [{| loc := [field]; type_ := "greater_than_equal" |}]
  else [].

(** [float] field with [le=1.0]: the value is refused when it is above
    the bound, so [float('nan')] and [float('-inf')] pass this check. *)
Definition check_le1_float (field : string) (v : float) : list ErrorDetail :=
  if float_gt v (Finite 1) then
    [{| loc := [field]; type_ := "less_than_equal" |}]
  else [].

(** An [after] field validator runs only on a value that passed the
    declarative constraints; a [ValueError] it raises is one more line. *)
Definition after_validator {A : Type} (field : string)
    (declared : list ErrorDetail) (validator : result A) : list ErrorDetail :=
  match declared with
  | [] =>
      match validator with
      | Return _ => []
      | Raise _ => [{| loc := [field]; type_ := "value_error" |}]
      end
  | _ => declared
  end.

(** A line of a nested model, under the field that holds it. *)
Definition under (field : string) (e : ErrorDetail) : ErrorDetail :=
  {| loc := field :: loc e; type_ := type_ e |}.

(** The constructor of a model: the instance, or [ValidationError]. *)
Definition construct {A : Type} (title : string) (errs : list ErrorDetail)
    (instance : A) : result A :=
  match errs with
  | [] => Return instance
  | _ => Raise (validation_error title errs)
  end.

End pydantic.

(** ** core/models/repository.py *)

Module models_repository.

Import Regex pydantic.

(** [[a-zA-Z0-9._-]] *)
Definition github_name_class : list (ascii * ascii) :=
  [("a", "z"); ("A", "Z"); ("0", "9"); (".", "."); ("_", "_"); ("-", "-")]%char.

(** [r'^https://github\.com/[a-zA-Z0-9._-]+/[a-zA-Z0-9._-]+/?$'] *)
Definition github_pattern : regex :=
  Cat Bol
 (Cat (lit "https://github.com/")
 (Cat (Plus (Cls github_name_class))
 (Cat (Chr "/")
 (Cat (Plus (Cls github_name_class))
 (Cat (Opt (Chr "/"))
      Eol))))).

(** [r'^repo-[a-f0-9]{8}$'], the pattern of
    [IngestSuccessResponse.repository_id] *)
Definition repository_id_pattern : regex :=
  Cat Bol
 (Cat (lit "repo-")
 (Cat (Rep 8 (Cls [("a", "f"); ("0", "9")]%char))
      Eol)).

Module IngestRequest.

Record t : Type := {
  repository_url : string;
  github_token : option string
}.

Definition validate_github_url (v : string) : result string :=
  if negb (re_match github_pattern v) then
    Raise (Exn ValueError "Must be a valid GitHub repository URL")
  else Return v.

Definition errors (repository_url : string) (github_token : option string)
  : list ErrorDetail :=
  after_validator "repository_url"
    (check_length "repository_url" 19 200 repository_url)
    (validate_github_url repository_url)
  ++ match github_token with
     | None => []
     | Some token => check_length "github_token" 4 200 token
     end.

Definition new (repository_url : string) (github_token : option string)
  : result t :=
  construct "IngestRequest" (errors repository_url github_token)
    {| repository_url := repository_url; github_token := github_token |}.

End IngestRequest.

Module ProcessingSummary.

Record t : Type := {
  files_processed : Z;
  processing_time_seconds : float
}.

Definition errors (files_processed : Z) (processing_time_seconds : float)
  : list ErrorDetail :=
  check_ge0_int "files_processed" files_processed
  ++ check_ge0_float "processing_time_seconds" processing_time_seconds.

Definition dict (m : t) : json :=
  JDict [("files_processed", JInt (files_processed m));
         ("processing_time_seconds", JFloat (processing_time_seconds m))].

End ProcessingSummary.

Module IngestSuccessResponse.

Record t : Type := {
  success : bool;
  repository_id : string;
  message : string;
  processing_summary : ProcessingSummary.t
}.

Definition errors (repository_id message : string)
    (files_processed : Z) (processing_time_seconds : float) : list ErrorDetail :=
  check_pattern "repository_id" repository_id_pattern repository_id
  ++ check_length "message" 1 500 message
  ++ map (under "processing_summary")
       (ProcessingSummary.errors files_processed processing_time_seconds).

(** [IngestSuccessResponse(success=..., repository_id=..., message=...,
    processing_summary={...})] *)
Definition new (success : bool) (repository_id message : string)
    (files_processed : Z) (processing_time_seconds : float) : result t :=
  construct "IngestSuccessResponse"
    (errors repository_id message files_processed processing_time_seconds)
    {| success := success;
       repository_id := repository_id;
       message := message;
       processing_summary :=
         {| ProcessingSummary.files_processed := files_processed;
            ProcessingSummary.processing_time_seconds :=
              processing_time_seconds |} |}.

Definition dict (m : t) : json :=
  JDict [("success", JBool (success m));
         ("repository_id", JStr (repository_id m));
         ("message", JStr (message m));
         ("processing_summary", ProcessingSummary.dict (processing_summary m))].

End IngestSuccessResponse.

Module IngestErrorResponse.

Record t : Type := {
  success : bool;
  error : string;
  error_code : string
}.

Definition errors (error error_code : string) : list ErrorDetail :=
  check_length "error" 1 1000 error
  ++ check_length "error_code" 1 50 error_code.

(** [IngestErrorResponse(error=..., error_code=...)]; [success] takes its
    default, [False]. *)
Definition new (error error_code : string) : result t :=
  construct "IngestErrorResponse" (errors error error_code)
    {| success := false; error := error; error_code := error_code |}.

Definition dict (m : t) : json :=
  JDict [("success", JBool (success m));
         ("error", JStr (error m));
         ("error_code", JStr (error_code m))].

End IngestErrorResponse.

End models_repository.

(** ** core/models/chat.py *)

Module models_chat.

Import Regex pydantic.

(** [r'^(user|agent)$'] *)
Definition role_pattern : regex :=
  Cat Bol (Cat (Alt (lit "user") (lit "agent")) Eol).

(** [r'^repo-[a-f0-9]{8}$'], the pattern of [ChatRequest.repository_id] *)
Definition repository_id_pattern : regex :=
  Cat Bol
 (Cat (lit "repo-")
 (Cat (Rep 8 (Cls [("a", "f"); ("0", "9")]%char))
      Eol)).

Module ConversationEntry.

Record t : Type := {
  role : string;
  content : string
}.

Definition errors (e : t) : list ErrorDetail :=
  check_pattern "role" role_pattern (role e)
  ++ check_length "content" 1 5000 (content e).

End ConversationEntry.

Module ChatRequest.

Record t : Type := {
  message : string;
  repository_id : string;
  conversation_history : option (list ConversationEntry.t)
}.

(** The explicit check of the history. *)
Definition validate_conversation_history {A : Type} (v : option (list A))
  : result (option (list A)) :=
  match v with
  | Some items =>
      if (10 <? List.length items)%nat then
        Raise (Exn ValueError "Conversation history limited to 10 entries")
      else Return v
  | None => Return v
  end.

(** The declarative part of the history field: [max_items=10], then the
    entries one by one. *)
Definition history_declared_errors (v : option (list ConversationEntry.t))
  : list ErrorDetail :=
  if max_items_ok 10 v then
    match v with
    | None => []
    | Some items =>
        map (under "conversation_history")
            (flat_map ConversationEntry.errors items)
    end
  else [{| loc := ["conversation_history"]; type_ := "too_long" |}].

Definition errors (message repository_id : string)
    (conversation_history : option (list ConversationEntry.t))
  : list ErrorDetail :=
  check_length "message" 1 5000 message
  ++ check_pattern "repository_id" repository_id_pattern repository_id
  ++ after_validator "conversation_history"
       (history_declared_errors conversation_history)
       (validate_conversation_history conversation_history).

Definition new (message repository_id : string)
    (conversation_history : option (list ConversationEntry.t)) : result t :=
  construct "ChatRequest" (errors message repository_id conversation_history)
    {| message := message;
       repository_id := repository_id;
       conversation_history := conversation_history |}.

End ChatRequest.

Module FileSuggestion.

Record t : Type := {
  file_name : string;
  file_path : string;
  github_url : string;
  description : string;
  relevance_score : float
}.

Definition errors (f : t) : list ErrorDetail :=
  check_length "file_name" 1 255 (file_name f)
  ++ check_length "file_path" 1 1000 (file_path f)
  ++ check_length "github_url" 1 2000 (github_url f)
  ++ check_length "description" 1 5000 (description f)
  ++ check_ge0_float "relevance_score" (relevance_score f)
  ++ check_le1_float "relevance_score" (relevance_score f).

Definition dict (f : t) : json :=
  JDict [("file_name", JStr (file_name f));
         ("file_path", JStr (file_path f));
         ("github_url", JStr (github_url f));
         ("description", JStr (description f));
         ("relevance_score", JFloat (relevance_score f))].

End FileSuggestion.

Module ChatMetadata.

Record t : Type := {
  processing_time_ms : Z;
  search_strategy : string
}.

Definition errors (m : t) : list ErrorDetail :=
  check_ge0_int "processing_time_ms" (processing_time_ms m)
  ++ check_length "search_strategy" 1 100 (search_strategy m).

Definition dict (m : t) : json :=
  JDict [("processing_time_ms", JInt (processing_time_ms m));
         ("search_strategy", JStr (search_strategy m))].

End ChatMetadata.

Module ChatSuccessResponse.

Record t : Type := {
  response : string;
  file_suggestions : list FileSuggestion.t;
  metadata : ChatMetadata.t
}.

Definition errors (response : string)
    (file_suggestions : list FileSuggestion.t) (metadata : ChatMetadata.t)
  : list ErrorDetail :=
  check_length "response" 1 10000 response
  ++ (if max_items_ok 20 (Some file_suggestions) then
        map (under "file_suggestions")
            (flat_map FileSuggestion.errors file_suggestions)
      else [{| loc := ["file_suggestions"]; type_ := "too_long" |}])
  ++ map (under "metadata") (ChatMetadata.errors metadata).

Definition new (response : string)
    (file_suggestions : list FileSuggestion.t) (metadata : ChatMetadata.t)
  : result t :=
  construct "ChatSuccessResponse" (errors response file_suggestions metadata)
    {| response := response;
       file_suggestions := file_suggestions;
       metadata := metadata |}.

Definition dict (m : t) : json :=
  JDict [("response", JStr (response m));
         ("file_suggestions",
          JList (map FileSuggestion.dict (file_suggestions m)));
         ("metadata", ChatMetadata.dict (metadata m))].

End ChatSuccessResponse.

Module ChatErrorResponse.

Record t : Type := {
  success : bool;
  error : string;
  error_code : string
}.

Definition errors (error error_code : string) : list ErrorDetail :=
  check_length "error" 1 1000 error
  ++ check_length "error_code" 1 50 error_code.

(** [ChatErrorResponse(error=..., error_code=...)]; [success] takes its
    default, [False]. *)
Definition new (error error_code : string) : result t :=
  construct "ChatErrorResponse" (errors error error_code)
    {| success := false; error := error; error_code := error_code |}.

Definition dict (m : t) : json :=
  JDict [("success", JBool (success m));
         ("error", JStr (error m));
         ("error_code", JStr (error_code m))].

End ChatErrorResponse.

End models_chat.

(** ** apps/api/exceptions *)

Module exceptions.

Definition module_name : string := "apps.api.exceptions.__init___".

Definition InvalidURLError : pyclass :=
  PyClass module_name "InvalidURLError" [ValueError].
Definition InvalidTokenError : pyclass :=
  PyClass module_name "InvalidTokenError" [ValueError].
Definition InsufficientPermissionsError : pyclass :=
  PyClass module_name "InsufficientPermissionsError" [PermissionError].
Definition RepoTooLargeError : pyclass :=
  PyClass module_name "RepoTooLargeError" [ValueError].
Definition ProcessingFailedError : pyclass :=
  PyClass module_name "ProcessingFailedError" [Exception].
Definition StorageError : pyclass :=
  PyClass module_name "StorageError" [Exception].
Definition UnsupportedFormatError : pyclass :=
  PyClass module_name "UnsupportedFormatError" [Exception].

End exceptions.

(** ** FastAPI: what the framework does around a route function *)

Module fastapi.

(** One request through an endpoint: what the collaborator printed, the
    requests the collaborator was called with, and what the route function
    did: returned a response, or let an exception escape (the framework
    then answers with its own plain-text 500 page). *)
Record exchange (Req : Type) : Type := {
  stdout : list string;
  calls : list Req;
  outcome : result JSONResponse
}.

Arguments stdout {Req} e.
Arguments calls {Req} e.
Arguments outcome {Req} e.

(** A collaborator: prints, then returns a payload or raises. *)
Definition collaborator (Req Resp : Type) : Type :=
  Req -> list string * result Resp.

(** A returned model or dict is sent with status 200. *)
Definition returned_value (j : json) : JSONResponse :=
  {| status_code := status.HTTP_200_OK; content := j |}.

(** Of each line of a request validation error, its type and location. *)
Definition detail (e : pydantic.ErrorDetail) : json :=
  JDict [("type", JStr (pydantic.type_ e));
         ("loc", JList (map JStr ("body" :: pydantic.loc e)))].

(** A body that fails its schema never reaches the route function. *)
Definition request_validation_error (errs : list pydantic.ErrorDetail)
  : JSONResponse :=
  {| status_code := status.HTTP_422_UNPROCESSABLE_ENTITY;
     content := JDict [("detail", JList (map detail errs))] |}.

End fastapi.

(** ** apps/api/utils/error_handlers.py *)

Module error_handlers.

Import status exceptions.
Import models_repository models_chat.

Definition handle_ingestion_error (error : exn) : result JSONResponse :=
  if isinstance error InvalidURLError then
    body <- IngestErrorResponse.new (str error) "INVALID_URL" ;;
    Return {| status_code := HTTP_400_BAD_REQUEST;
              content := IngestErrorResponse.dict body |}
  else if isinstance error InvalidTokenError then
    body <- IngestErrorResponse.new (str error) "INVALID_TOKEN" ;;
    Return {| status_code := HTTP_401_UNAUTHORIZED;
              content := IngestErrorResponse.dict body |}
  else if isinstance error InsufficientPermissionsError then
    body <- IngestErrorResponse.new (str error) "INSUFFICIENT_PERMISSIONS" ;;
    Return {| status_code := HTTP_403_FORBIDDEN;
              content := IngestErrorResponse.dict body |}
  else if isinstance error FileNotFoundError then
    body <- IngestErrorResponse.new (str error) "REPO_NOT_FOUND" ;;
    Return {| status_code := HTTP_404_NOT_FOUND;
              content := IngestErrorResponse.dict body |}
  else if isinstance error PermissionError then
    body <- IngestErrorResponse.new (str error) "PRIVATE_REPO_NO_TOKEN" ;;
    Return {| status_code := HTTP_401_UNAUTHORIZED;
              content := IngestErrorResponse.dict body |}
  else if isinstance error RepoTooLargeError then
    body <- IngestErrorResponse.new (str error) "REPO_TOO_LARGE" ;;
    Return {| status_code := HTTP_422_UNPROCESSABLE_ENTITY;
              content := IngestErrorResponse.dict body |}
  else if isinstance error ProcessingFailedError then
    body <- IngestErrorResponse.new (str error) "PROCESSING_FAILED" ;;
    Return {| status_code := HTTP_422_UNPROCESSABLE_ENTITY;
              content := IngestErrorResponse.dict body |}
  else if isinstance error StorageError then
    body <- IngestErrorResponse.new (str error) "STORAGE_ERROR" ;;
    Return {| status_code := HTTP_500_INTERNAL_SERVER_ERROR;
              content := IngestErrorResponse.dict body |}
  else if isinstance error NotImplementedError then
    body <- IngestErrorResponse.new
              "Ingestion agent not yet implemented" "NOT_IMPLEMENTED" ;;
    Return {| status_code := HTTP_501_NOT_IMPLEMENTED;
              content := IngestErrorResponse.dict body |}
  else
    body <- IngestErrorResponse.new
              "An unexpected error occurred during repository processing."
              "AGENT_ERROR" ;;
    Return {| status_code := HTTP_500_INTERNAL_SERVER_ERROR;
              content := IngestErrorResponse.dict body |}.

Definition handle_chat_error (error : exn) : result JSONResponse :=
  if isinstance error FileNotFoundError then
    body <- ChatErrorResponse.new (str error) "REPO_NOT_INDEXED" ;;
    Return {| status_code := HTTP_404_NOT_FOUND;
              content := ChatErrorResponse.dict body |}
  else if isinstance error ValueError then
    body <- ChatErrorResponse.new (str error) "QUERY_PROCESSING_FAILED" ;;
    Return {| status_code := HTTP_422_UNPROCESSABLE_ENTITY;
              content := ChatErrorResponse.dict body |}
  else if isinstance error ConnectionError then
    body <- ChatErrorResponse.new (str error) "AGENT_UNAVAILABLE" ;;
    Return {| status_code := HTTP_500_INTERNAL_SERVER_ERROR;
              content := ChatErrorResponse.dict body |}
  else if isinstance error NotImplementedError then
    body <- ChatErrorResponse.new
              "Chat agent not yet implemented" "NOT_IMPLEMENTED" ;;
    Return {| status_code := HTTP_501_NOT_IMPLEMENTED;
              content := ChatErrorResponse.dict body |}
  else
    body <- ChatErrorResponse.new
              "An unexpected error occurred while processing the chat request."
              "AGENT_ERROR" ;;
    Return {| status_code := HTTP_500_INTERNAL_SERVER_ERROR;
              content := ChatErrorResponse.dict body |}.

End error_handlers.

(** ** apps/api/services *)

Module services.

Import fastapi models_repository models_chat.

Module IngestionService.

Definition process_repository
  : collaborator IngestRequest.t IngestSuccessResponse.t :=
  fun request =>
    ([], Raise (Exn NotImplementedError "Ingestion agent integration pending")).

End IngestionService.

Module ChatService.

Definition process_query : collaborator ChatRequest.t ChatSuccessResponse.t :=
  fun request =>
    ([], Raise (Exn NotImplementedError "Chat agent integration pending")).

End ChatService.

End services.

(** ** apps/api/routes *)

Module routes.

Import fastapi error_handlers models_repository models_chat.

(** routes/health.py *)
Definition health_check : JSONResponse :=
  returned_value
    (JDict [("status", JStr "healthy"); ("service", JStr "agents-locate-api")]).

(** routes/ingestion.py; the module-level [ingestion_service] is the
    first argument.  [except Exception] lets an exception that is not an
    [Exception] pass. *)
Definition ingest_repository
    (ingestion_service : collaborator IngestRequest.t IngestSuccessResponse.t)
    (request : IngestRequest.t) : exchange IngestRequest.t :=
  let (printed, awaited) := ingestion_service request in
  {| stdout := printed;
     calls := [request];
     outcome :=
       match awaited with
       | Return result =>
           Return (returned_value (IngestSuccessResponse.dict result))
       | Raise e =>
           if isinstance e Exception then handle_ingestion_error e
           else Raise e
       end |}.

(** routes/chat.py; the module-level [chat_service] is the first
    argument. *)
Definition chat_with_repository
    (chat_service : collaborator ChatRequest.t ChatSuccessResponse.t)
    (request : ChatRequest.t) : exchange ChatRequest.t :=
  let (printed, awaited) := chat_service request in
  {| stdout := printed;
     calls := [request];
     outcome :=
       match awaited with
       | Return result =>
           Return (returned_value (ChatSuccessResponse.dict result))
       | Raise e =>
           if isinstance e Exception then handle_chat_error e
           else Raise e
       end |}.

End routes.

(** ** apps/api/main.py: the application, by endpoint *)

Module main.

Import fastapi models_repository models_chat.

(** [GET /] *)
Definition get_root : JSONResponse := routes.health_check.

(** [POST /api/ingest] with a body of the fields' types: the body is
    validated as an [IngestRequest], then handed to the route function. *)
Definition post_api_ingest
    (ingestion_service : collaborator IngestRequest.t IngestSuccessResponse.t)
    (repository_url : string) (github_token : option string)
  : exchange IngestRequest.t :=
  match IngestRequest.errors repository_url github_token with
  | [] =>
      routes.ingest_repository ingestion_service
        {| IngestRequest.repository_url := repository_url;
           IngestRequest.github_token := github_token |}
  | errs =>
      {| stdout := []; calls := [];
         outcome := Return (request_validation_error errs) |}
  end.

(** [POST /api/chat] *)
Definition post_api_chat
    (chat_service : collaborator ChatRequest.t ChatSuccessResponse.t)
    (message repository_id : string)
    (conversation_history : option (list ConversationEntry.t))
  : exchange ChatRequest.t :=
  match ChatRequest.errors message repository_id conversation_history with
  | [] =>
      routes.chat_with_repository chat_service
        {| ChatRequest.message := message;
           ChatRequest.repository_id := repository_id;
           ChatRequest.conversation_history := conversation_history |}
  | errs =>
      {| stdout := []; calls := [];
         outcome := Return (request_validation_error errs) |}
  end.

(** The application as [main.py] assembles it. *)
Definition app_post_api_ingest :=
  post_api_ingest services.IngestionService.process_repository.

Definition app_post_api_chat :=
  post_api_chat services.ChatService.process_query.

End main.

(** ** apps/api/simulation_main.py *)

Module simulation_main.

Import status fastapi models_repository models_chat.

Definition module_name : string := "apps.api.simulation_main".

(** The simulation's own copies of the exception classes. *)
Definition InvalidURLError : pyclass :=
  PyClass module_name "InvalidURLError" [ValueError].
Definition InvalidTokenError : pyclass :=
  PyClass module_name "InvalidTokenError" [ValueError].
Definition InsufficientPermissionsError : pyclass :=
  PyClass module_name "InsufficientPermissionsError" [PermissionError].
Definition RepoTooLargeError : pyclass :=
  PyClass module_name "RepoTooLargeError" [ValueError].
Definition ProcessingFailedError : pyclass :=
  PyClass module_name "ProcessingFailedError" [Exception].
Definition StorageError : pyclass :=
  PyClass module_name "StorageError" [Exception].
Definition UnsupportedFormatError : pyclass :=
  PyClass module_name "UnsupportedFormatError" [Exception].

(** Truth value of an optional string: [None] and [""] are false. *)
Definition truthy (v : option string) : bool :=
  match v with
  | None => false
  | Some s => negb (String.eqb s "")
  end.

Definition token_contains (needle : string) (v : option string) : bool :=
  match v with
  | None => false
  | Some s => Str.contains needle s
  end.

Definition process_ingestion_request
  : collaborator IngestRequest.t IngestSuccessResponse.t :=
  fun request =>
    let url := IngestRequest.repository_url request in
    let token := IngestRequest.github_token request in
    (["Simulating ingestion for: " ++ url],
     if Str.contains "invalid-url" url then
       Raise (Exn InvalidURLError "Repository URL format is invalid")
     else if Str.contains "not-found" url then
       Raise (Exn FileNotFoundError
                "Repository does not exist or is not accessible")
     else if Str.contains "private" url && negb (truthy token) then
       Raise (Exn PermissionError "Private repository requires GitHub token")
     else if truthy token && token_contains "invalid-token" token then
       Raise (Exn InvalidTokenError "GitHub token is invalid or expired")
     else if truthy token && token_contains "insufficient-permissions" token
     then
       Raise (Exn InsufficientPermissionsError
                "Token lacks required repository permissions")
     else if Str.contains "repo-too-large" url then
       Raise (Exn RepoTooLargeError "Repository exceeds processing size limits")
     else if Str.contains "processing-failed" url then
       Raise (Exn ProcessingFailedError "Repository processing failed")
     else if Str.contains "storage-error" url then
       Raise (Exn StorageError "Failed to store repository data")
     else if Str.contains "fail-processing" url then
       Raise (Exn Exception "Simulated repository processing failure.")
     else
       IngestSuccessResponse.new true "repo-a1b2c3d4"
         "Repository successfully processed and indexed" 247 (Finite (452 # 10))).

Definition simulated_suggestions : list FileSuggestion.t :=
  [ {| FileSuggestion.file_name := "auth.js";
       FileSuggestion.file_path := "/src/utils/auth.js";
       FileSuggestion.github_url :=
         "https://github.com/facebook/react/blob/main/src/utils/auth.js";
       FileSuggestion.description :=
         "Core authentication utility module that handles user login validation, token generation, and session management...";
       FileSuggestion.relevance_score := Finite (95 # 100) |};
    {| FileSuggestion.file_name := "LoginComponent.jsx";
       FileSuggestion.file_path := "/src/components/LoginComponent.jsx";
       FileSuggestion.github_url :=
         "https://github.com/facebook/react/blob/main/src/components/LoginComponent.jsx";
       FileSuggestion.description :=
         "React component for user login interface. Handles form validation, user input processing, and authentication API calls.";
       FileSuggestion.relevance_score := Finite (87 # 100) |} ].

Definition process_chat_request
  : collaborator ChatRequest.t ChatSuccessResponse.t :=
  fun request =>
    (["Simulating chat for repo: " ++ ChatRequest.repository_id request],
     if String.eqb (ChatRequest.repository_id request) "repo-not-indexed" then
       Raise (Exn FileNotFoundError "Repository ID not found in system")
     else if Str.contains "unprocessable" (ChatRequest.message request) then
       Raise (Exn ValueError "Query cannot be processed by agent system")
     else if Str.contains "unavailable" (ChatRequest.message request) then
       Raise (Exn ConnectionError "Chat agent system is unavailable")
     else
       ChatSuccessResponse.new
         "User authentication is handled primarily in the authentication module. I found several relevant files that implement different aspects of the authentication system."
         simulated_suggestions
         {| ChatMetadata.processing_time_ms := 1247;
            ChatMetadata.search_strategy := "semantic_search" |}).

(** [GET /] *)
Definition read_root : JSONResponse :=
  returned_value (JDict [("Hello", JStr "World")]).

(** [POST /api/ingest]: the route function, with the module-level
    [process_ingestion_request] as first argument.  An exception raised
    while a handler builds its response is not caught by a later clause. *)
Definition ingest_repository
    (process_ingestion_request
       : collaborator IngestRequest.t IngestSuccessResponse.t)
    (request : IngestRequest.t) : exchange IngestRequest.t :=
  let (printed, awaited) := process_ingestion_request request in
  {| stdout := printed;
     calls := [request];
     outcome :=
       match awaited with
       | Return result =>
           Return (returned_value (IngestSuccessResponse.dict result))
       | Raise e =>
           if isinstance e InvalidURLError then
             body <- IngestErrorResponse.new (str e) "INVALID_URL" ;;
             Return {| status_code := HTTP_400_BAD_REQUEST;
                       content := IngestErrorResponse.dict body |}
           else if isinstance e InvalidTokenError then
             body <- IngestErrorResponse.new (str e) "INVALID_TOKEN" ;;
             Return {| status_code := HTTP_401_UNAUTHORIZED;
                       content := IngestErrorResponse.dict body |}
           else if isinstance e InsufficientPermissionsError then
             body <- IngestErrorResponse.new (str e)
                       "INSUFFICIENT_PERMISSIONS" ;;
             Return {| status_code := HTTP_403_FORBIDDEN;
                       content := IngestErrorResponse.dict body |}
           else if isinstance e FileNotFoundError then
             body <- IngestErrorResponse.new (str e) "REPO_NOT_FOUND" ;;
             Return {| status_code := HTTP_404_NOT_FOUND;
                       content := IngestErrorResponse.dict body |}
           else if isinstance e PermissionError then
             body <- IngestErrorResponse.new (str e)
                       "PRIVATE_REPO_NO_TOKEN" ;;
             Return {| status_code := HTTP_401_UNAUTHORIZED;
                       content := IngestErrorResponse.dict body |}
           else if isinstance e RepoTooLargeError then
             body <- IngestErrorResponse.new (str e) "REPO_TOO_LARGE" ;;
             Return {| status_code := HTTP_422_UNPROCESSABLE_ENTITY;
                       content := IngestErrorResponse.dict body |}
           else if isinstance e ProcessingFailedError then
             body <- IngestErrorResponse.new (str e) "PROCESSING_FAILED" ;;
             Return {| status_code := HTTP_422_UNPROCESSABLE_ENTITY;
                       content := IngestErrorResponse.dict body |}
           else if isinstance e StorageError then
             body <- IngestErrorResponse.new (str e) "STORAGE_ERROR" ;;
             Return {| status_code := HTTP_500_INTERNAL_SERVER_ERROR;
                       content := IngestErrorResponse.dict body |}
           else if isinstance e Exception then
             body <- IngestErrorResponse.new
                       "An unexpected error occurred during repository processing."
                       "AGENT_ERROR" ;;
             Return {| status_code := HTTP_500_INTERNAL_SERVER_ERROR;
                       content := IngestErrorResponse.dict body |}
           else Raise e
       end |}.

(** [POST /api/chat]: the route function. *)
Definition chat_with_repository
    (process_chat_request : collaborator ChatRequest.t ChatSuccessResponse.t)
    (request : ChatRequest.t) : exchange ChatRequest.t :=
  let (printed, awaited) := process_chat_request request in
  {| stdout := printed;
     calls := [request];
     outcome :=
       match awaited with
       | Return result =>
           Return (returned_value (ChatSuccessResponse.dict result))
       | Raise e =>
           if isinstance e FileNotFoundError then
             body <- ChatErrorResponse.new (str e) "REPO_NOT_INDEXED" ;;
             Return {| status_code := HTTP_404_NOT_FOUND;
                       content := ChatErrorResponse.dict body |}
           else if isinstance e ValueError then
             body <- ChatErrorResponse.new (str e)
                       "QUERY_PROCESSING_FAILED" ;;
             Return {| status_code := HTTP_422_UNPROCESSABLE_ENTITY;
                       content := ChatErrorResponse.dict body |}
           else if isinstance e ConnectionError then
             body <- ChatErrorResponse.new (str e) "AGENT_UNAVAILABLE" ;;
             Return {| status_code := HTTP_500_INTERNAL_SERVER_ERROR;
                       content := ChatErrorResponse.dict body |}
           else if isinstance e Exception then
             body <- ChatErrorResponse.new
                       "An unexpected error occurred while processing the chat request."
                       "AGENT_ERROR" ;;
             Return {| status_code := HTTP_500_INTERNAL_SERVER_ERROR;
                       content := ChatErrorResponse.dict body |}
           else Raise e
       end |}.

(** The endpoints with request-body validation in front. *)
Definition post_api_ingest
    (collab : collaborator IngestRequest.t IngestSuccessResponse.t)
    (repository_url : string) (github_token : option string)
  : exchange IngestRequest.t :=
  match IngestRequest.errors repository_url github_token with
  | [] =>
      ingest_repository collab
        {| IngestRequest.repository_url := repository_url;
           IngestRequest.github_token := github_token |}
  | errs =>
      {| stdout := []; calls := [];
         outcome := Return (request_validation_error errs) |}
  end.

Definition post_api_chat
    (collab : collaborator ChatRequest.t ChatSuccessResponse.t)
    (message repository_id : string)
    (conversation_history : option (list ConversationEntry.t))
  : exchange ChatRequest.t :=
  match ChatRequest.errors message repository_id conversation_history with
  | [] =>
      chat_with_repository collab
        {| ChatRequest.message := message;
           ChatRequest.repository_id := repository_id;
           ChatRequest.conversation_history := conversation_history |}
  | errs =>
      {| stdout := []; calls := [];
         outcome := Return (request_validation_error errs) |}
  end.

(** The application as [simulation_main.py] assembles it. *)
Definition get_root : JSONResponse := read_root.

Definition app_post_api_ingest := post_api_ingest process_ingestion_request.

Definition app_post_api_chat := post_api_chat process_chat_request.

End simulation_main.

(** ** The contract, in the specification's terms *)

Module Contract.

Import Regex.

(** The error body of the data model: [{success: false, error, error_code}]. *)
Definition error_body (error error_code : string) : json :=
  JDict [("success", JBool false);
         ("error", JStr error);
         ("error_code", JStr error_code)].

Definition error_response (status : Z) (error error_code : string)
  : JSONResponse :=
  {| status_code := status; content := error_body error error_code |}.

(** A collaborator that fails with [e], whatever the request. *)
Definition raising {Req Resp : Type} (printed : list string) (e : exn)
  : fastapi.collaborator Req Resp :=
  fun _ => (printed, Raise e).

(** The ingestion rows of the classification table. *)
Module Ingestion.

Inductive kind : Type :=
| InvalidURL | InvalidToken | InsufficientPermissions | RepoNotFound
| PrivateRepoNoToken | RepoTooLarge | ProcessingFailed | StorageError
| NotImplemented.

Definition all : list kind :=
  [InvalidURL; InvalidToken; InsufficientPermissions; RepoNotFound;
   PrivateRepoNoToken; RepoTooLarge; ProcessingFailed; StorageError;
   NotImplemented].

(** The class that stands for the kind in [handle_ingestion_error]. *)
Definition class_of (k : kind) : pyclass :=
  match k with
  | InvalidURL => exceptions.InvalidURLError
  | InvalidToken => exceptions.InvalidTokenError
  | InsufficientPermissions => exceptions.InsufficientPermissionsError
  | RepoNotFound => FileNotFoundError
  | PrivateRepoNoToken => PermissionError
  | RepoTooLarge => exceptions.RepoTooLargeError
  | ProcessingFailed => exceptions.ProcessingFailedError
  | StorageError => exceptions.StorageError
  | NotImplemented => NotImplementedError
  end.

Definition row (k : kind) : Z * string :=
  match k with
  | InvalidURL => (400, "INVALID_URL")
  | InvalidToken => (401, "INVALID_TOKEN")
  | InsufficientPermissions => (403, "INSUFFICIENT_PERMISSIONS")
  | RepoNotFound => (404, "REPO_NOT_FOUND")
  | PrivateRepoNoToken => (401, "PRIVATE_REPO_NO_TOKEN")
  | RepoTooLarge => (422, "REPO_TOO_LARGE")
  | ProcessingFailed => (422, "PROCESSING_FAILED")
  | StorageError => (500, "STORAGE_ERROR")
  | NotImplemented => (501, "NOT_IMPLEMENTED")
  end%Z.

(** The text sent for a failure of kind [k] raised with text [m]. *)
Definition shown (k : kind) (m : string) : string :=
  match k with
  | NotImplemented => "Ingestion agent not yet implemented"
  | _ => m
  end.

End Ingestion.

(** The chat rows of the classification table. *)
Module Chat.

Inductive kind : Type :=
| RepoNotIndexed | QueryProcessingFailed | AgentUnavailable | NotImplemented.

Definition all : list kind :=
  [RepoNotIndexed; QueryProcessingFailed; AgentUnavailable; NotImplemented].

(** The class that stands for the kind in [handle_chat_error]. *)
Definition class_of (k : kind) : pyclass :=
  match k with
  | RepoNotIndexed => FileNotFoundError
  | QueryProcessingFailed => ValueError
  | AgentUnavailable => ConnectionError
  | NotImplemented => NotImplementedError
  end.

Definition row (k : kind) : Z * string :=
  match k with
  | RepoNotIndexed => (404, "REPO_NOT_INDEXED")
  | QueryProcessingFailed => (422, "QUERY_PROCESSING_FAILED")
  | AgentUnavailable => (500, "AGENT_UNAVAILABLE")
  | NotImplemented => (501, "NOT_IMPLEMENTED")
  end%Z.

Definition shown (k : kind) (m : string) : string :=
  match k with
  | NotImplemented => "Chat agent not yet implemented"
  | _ => m
  end.

End Chat.

(** The two classifiers, by endpoint. *)
Inductive endpoint : Type := Ingest | Converse.

Definition classifier (ep : endpoint) : exn -> result JSONResponse :=
  match ep with
  | Ingest => error_handlers.handle_ingestion_error
  | Converse => error_handlers.handle_chat_error
  end.

(** A branch that builds its answer from the text of the exception
    takes it. *)
Definition text_branch (ep : endpoint) (e : exn) : bool :=
  match ep with
  | Ingest =>
      isinstance e exceptions.InvalidURLError
      || isinstance e exceptions.InvalidTokenError
      || isinstance e exceptions.InsufficientPermissionsError
      || isinstance e FileNotFoundError
      || isinstance e PermissionError
      || isinstance e exceptions.RepoTooLargeError
      || isinstance e exceptions.ProcessingFailedError
      || isinstance e exceptions.StorageError
  | Converse =>
      isinstance e FileNotFoundError
      || isinstance e ValueError
      || isinstance e ConnectionError
  end.

(** Some branch before the final [else] takes the exception. *)
Definition named_branch (ep : endpoint) (e : exn) : bool :=
  text_branch ep e || isinstance e NotImplementedError.

Definition generic_message (ep : endpoint) : string :=
  match ep with
  | Ingest => "An unexpected error occurred during repository processing."
  | Converse =>
      "An unexpected error occurred while processing the chat request."
  end.

Definition fallback (ep : endpoint) : JSONResponse :=
  error_response 500 (generic_message ep) "AGENT_ERROR".

(** The GitHub URL pattern as the specification writes it:
    [^https://github\.com/[A-Za-z0-9._-]+/[A-Za-z0-9._-]+/?$] *)
Definition spec_name_class : list (ascii * ascii) :=
  [("A", "Z"); ("a", "z"); ("0", "9"); (".", "."); ("_", "_"); ("-", "-")]%char.

Definition spec_github_pattern : regex :=
  Cat Bol
 (Cat (lit "https://github.com/")
 (Cat (Plus (Cls spec_name_class))
 (Cat (Chr "/")
 (Cat (Plus (Cls spec_name_class))
 (Cat (Opt (Chr "/"))
      Eol))))).

(** Following the specification: a URL matches the GitHub pattern when
    the pattern spans the whole of it, [^] being the start and [$] the end
    of the text. *)
Definition matches_github_pattern (url : string) : bool :=
  matches_at RustRegex spec_github_pattern (0%nat, url).

(** Two patterns of one shape whose character classes hold the same
    characters. *)
Inductive same_shape : regex -> regex -> Prop :=
| shape_eps : same_shape Eps Eps
| shape_chr c : same_shape (Chr c) (Chr c)
| shape_cls rs rs' :
    (forall c, in_class rs c = in_class rs' c) ->
    same_shape (Cls rs) (Cls rs')
| shape_cat r1 r1' r2 r2' :
    same_shape r1 r1' -> same_shape r2 r2' ->
    same_shape (Cat r1 r2) (Cat r1' r2')
| shape_alt r1 r1' r2 r2' :
    same_shape r1 r1' -> same_shape r2 r2' ->
    same_shape (Alt r1 r2) (Alt r1' r2')
| shape_plus r r' : same_shape r r' -> same_shape (Plus r) (Plus r')
| shape_opt r r' : same_shape r r' -> same_shape (Opt r) (Opt r')
| shape_rep n r r' : same_shape r r' -> same_shape (Rep n r) (Rep n r')
| shape_bol : same_shape Bol Bol
| shape_eol : same_shape Eol Eol.

(** The simulation keeps its own copies of the taxonomy classes: the
    class of the other router that answers to a class of this one. *)
Definition counterpart_module (m : string) : string :=
  if String.eqb m exceptions.module_name then simulation_main.module_name
  else if String.eqb m simulation_main.module_name then exceptions.module_name
  else m.

Fixpoint counterpart (c : pyclass) : pyclass :=
  match c with
  | PyClass m n bases => PyClass (counterpart_module m) n (map counterpart bases)
  end.

Definition counterpart_exn (e : exn) : exn :=
  Exn (counterpart (exn_class e)) (exn_str e).

(** The wire-level pair of a response: status and [error_code]. *)
Definition field (name : string) (j : json) : option json :=
  match j with
  | JDict fields =>
      match find (fun kv => String.eqb (fst kv) name) fields with
      | Some kv => Some (snd kv)
      | None => None
      end
  | _ => None
  end.

Definition wire_pair (r : result JSONResponse) : option (Z * option json) :=
  match r with
  | Return resp => Some (status_code resp, field "error_code" (content resp))
  | Raise _ => None
  end.

(** A well-formed structured error body. *)
Definition well_formed_error (r : result JSONResponse) : Prop :=
  exists status error error_code,
    r = Return (error_response status error error_code)
    /\ Str.length_between 1 1000 error = true
    /\ Str.length_between 1 50 error_code = true.

(** The branch of the real handlers that the simulation does not have is
    reached: an [Exception] that is a [NotImplementedError] and that no
    earlier branch takes. *)
Definition reaches_not_implemented (ep : endpoint) (e : exn) : bool :=
  isinstance e Exception
  && isinstance e NotImplementedError
  && negb (text_branch ep e).

(** What each router answers when its collaborator raises [e]. *)
Definition real_router (ep : endpoint)
    (ingest : models_repository.IngestRequest.t)
    (chat : models_chat.ChatRequest.t)
    (printed : list string) (e : exn) : result JSONResponse :=
  match ep with
  | Ingest =>
      fastapi.outcome (routes.ingest_repository (raising printed e) ingest)
  | Converse =>
      fastapi.outcome (routes.chat_with_repository (raising printed e) chat)
  end.

Definition simulation_router (ep : endpoint)
    (ingest : models_repository.IngestRequest.t)
    (chat : models_chat.ChatRequest.t)
    (printed : list string) (e : exn) : result JSONResponse :=
  match ep with
  | Ingest =>
      fastapi.outcome
        (simulation_main.ingest_repository (raising printed e) ingest)
  | Converse =>
      fastapi.outcome
        (simulation_main.chat_with_repository (raising printed e) chat)
  end.

(** Requests and failures used as concrete cases. *)
Definition sample_ingest : models_repository.IngestRequest.t :=
  {| models_repository.IngestRequest.repository_url :=
       "https://github.com/facebook/react";
     models_repository.IngestRequest.github_token := None |}.

Definition sample_chat : models_chat.ChatRequest.t :=
  {| models_chat.ChatRequest.message := "Where is authentication handled?";
     models_chat.ChatRequest.repository_id := "repo-a1b2c3d4";
     models_chat.ChatRequest.conversation_history := None |}.

(** [class MissingValue(FileNotFoundError, ValueError): pass] *)
Definition MissingValue : pyclass :=
  PyClass "tests" "MissingValue" [FileNotFoundError; ValueError].

Definition health_body : json :=
  JDict [("status", JStr "healthy"); ("service", JStr "agents-locate-api")].


End Contract.

(** ** The responses the route decorators declare *)

Module declared.

Import status.

(** [responses={...}] of [routes/ingestion.py] *)
Definition routes_ingestion : list Z :=
  [HTTP_400_BAD_REQUEST; HTTP_401_UNAUTHORIZED; HTTP_403_FORBIDDEN;
   HTTP_404_NOT_FOUND; HTTP_422_UNPROCESSABLE_ENTITY;
   HTTP_500_INTERNAL_SERVER_ERROR; HTTP_501_NOT_IMPLEMENTED].

(** [responses={...}] of [routes/chat.py] *)
Definition routes_chat : list Z :=
  [HTTP_400_BAD_REQUEST; HTTP_404_NOT_FOUND; HTTP_422_UNPROCESSABLE_ENTITY;
   HTTP_500_INTERNAL_SERVER_ERROR; HTTP_501_NOT_IMPLEMENTED].

(** [responses={...}] of [POST /api/ingest] in [simulation_main.py] *)
Definition simulation_ingest : list Z :=
  [HTTP_400_BAD_REQUEST; HTTP_401_UNAUTHORIZED; HTTP_403_FORBIDDEN;
   HTTP_404_NOT_FOUND; HTTP_422_UNPROCESSABLE_ENTITY;
   HTTP_500_INTERNAL_SERVER_ERROR].

(** [responses={...}] of [POST /api/chat] in [simulation_main.py] *)
Definition simulation_chat : list Z :=
  [HTTP_400_BAD_REQUEST; HTTP_404_NOT_FOUND; HTTP_422_UNPROCESSABLE_ENTITY;
   HTTP_500_INTERNAL_SERVER_ERROR].

End declared.

(** ** The accepted values, described without the matcher *)

Module Shapes.

Import Regex models_repository models_chat.

(** The GitHub prefix, an owner and a repository name of letters, digits,
    [.], [_] and [-], then an optional [/] and an optional final newline. *)
Definition github_url (url : string) : Prop :=
  exists owner name slash tail,
    url = "https://github.com/" ++ owner ++ "/" ++ name ++ slash ++ tail
    /\ owner <> "" /\ all_in_class github_name_class owner = true
    /\ name <> "" /\ all_in_class github_name_class name = true
    /\ (slash = "" \/ slash = "/")
    /\ (tail = "" \/ tail = String newline "").

(** "repo-" and eight characters among [a-f] and [0-9]. *)
Definition repository_id (v : string) : Prop :=
  exists h,
    v = "repo-" ++ h /\ String.length h = 8%nat
    /\ all_in_class [("a", "f"); ("0", "9")]%char h = true.

(** An optional token: absent, or of 4 to 200 characters. *)
Definition token (v : option string) : Prop :=
  match v with
  | None => True
  | Some t => (4 <= String.length t <= 200)%nat
  end.

(** An entry of the history: a role "user" or "agent" and a content of
    1 to 5000 characters. *)
Definition entry (e : ConversationEntry.t) : Prop :=
  (ConversationEntry.role e = "user" \/ ConversationEntry.role e = "agent")
  /\ (1 <= String.length (ConversationEntry.content e) <= 5000)%nat.

(** An optional history: absent, or at most 10 entries, each in shape. *)
Definition history (v : option (list ConversationEntry.t)) : Prop :=
  match v with
  | None => True
  | Some items => (List.length items <= 10)%nat /\ Forall entry items
  end.




End Shapes.

(** * Properties *)

(** ** The matcher computes the relation *)

Section Matcher.

Import Regex.

Variable fl : flavour.

Lemma append_assoc (u v w : string) : ((u ++ v) ++ w = u ++ (v ++ w))%string.
Proof. induction u as [|a u IH]; simpl; [reflexivity | rewrite IH; reflexivity]. Qed.

Lemma append_length (u v : string) :
  String.length (u ++ v) = (String.length u + String.length v)%nat.
Proof. induction u as [|a u IH]; simpl; [reflexivity | rewrite IH; reflexivity]. Qed.

Lemma append_empty_r (u : string) : (u ++ "")%string = u.
Proof. induction u as [|a u IH]; simpl; [reflexivity | rewrite IH; reflexivity]. Qed.

Lemma consumed_nothing (p : pos) : consumed "" p p.
Proof. split; [reflexivity | simpl; lia]. Qed.

Lemma consumed_step (w v : string) (p q u : pos) :
  consumed w p q -> consumed v q u -> consumed (w ++ v) p u.
Proof.
  intros [Hpq Hn] [Hqu Hm]. split.
  - rewrite Hpq, Hqu, append_assoc. reflexivity.
  - rewrite Hm, Hn, append_length. lia.
Qed.

Lemma matches_consumes (r : regex) (p q : pos) :
  Matches fl r p q -> exists w, consumed w p q.
Proof.
  induction 1 as [ p | c n rest | ranges a n rest _ | r1 r2 p q u _ IH1 _ IH2
                 | r1 r2 p q _ IH | r1 r2 p q _ IH | r p q _ IH
                 | r p q u _ IH1 _ IH2 | r p q _ IH | r p | r p
                 | n r p q u _ IH1 _ IH2 | rest | p _ ];
    try (exists ""; apply consumed_nothing); try exact IH;
    try (destruct IH1 as [w Hw], IH2 as [v Hv]; exists (w ++ v)%string;
         exact (consumed_step Hw Hv)).
  - exists (String c ""). split; simpl; [reflexivity | lia].
  - exists (String a ""). split; simpl; [reflexivity | lia].
Qed.

Lemma consumed_same_length (w : string) (p q : pos) :
  consumed w p q ->
  String.length (snd p) = (String.length w + String.length (snd q))%nat.
Proof. intros [H _]. rewrite H, append_length. reflexivity. Qed.

(** A match never moves backwards, and one that consumes nothing stays. *)
Lemma matches_progress (r : regex) (p q : pos) :
  Matches fl r p q ->
  (String.length (snd q) < String.length (snd p))%nat \/ q = p.
Proof.
  intros H. destruct (matches_consumes H) as [w Hw].
  pose proof (consumed_same_length Hw) as Hlen.
  destruct w as [|a w].
  - right. destruct Hw as [Hs Hn]. simpl in Hs, Hn.
    destruct p, q. simpl in *. subst. f_equal. lia.
  - left. simpl in Hlen. lia.
Qed.

Lemma plus_iter_sound (step : pos -> list pos) (r : regex) :
  (forall p q, In q (step p) -> Matches fl r p q) ->
  forall fuel p q, In q (plus_iter step fuel p) -> Matches fl (Plus r) p q.
Proof.
  intros Hstep. induction fuel as [|fuel IH]; intros p q Hin; simpl in Hin.
  - contradiction.
  - apply in_flat_map in Hin. destruct Hin as [q1 [Hq1 Hin]].
    apply in_app_or in Hin. destruct Hin as [Hmore | Hlast].
    + destruct (String.length (snd q1) <? String.length (snd p))%nat;
        [|contradiction].
      apply M_plus_more with q1; [apply Hstep; exact Hq1 | apply IH; exact Hmore].
    + destruct Hlast as [<- | []]. apply M_plus_once. apply Hstep. exact Hq1.
Qed.

Lemma rep_iter_sound (step : pos -> list pos) (r : regex) :
  (forall p q, In q (step p) -> Matches fl r p q) ->
  forall n ps q, In q (rep_iter step n ps) ->
  exists p, In p ps /\ Matches fl (Rep n r) p q.
Proof.
  intros Hstep. induction n as [|n IH]; intros ps q Hin; simpl in Hin.
  - exists q. split; [exact Hin | constructor].
  - apply IH in Hin. destruct Hin as [p1 [Hp1 Hrest]].
    apply in_flat_map in Hp1. destruct Hp1 as [p [Hp Hfirst]].
    exists p. split; [exact Hp|].
    apply M_rep_succ with p1; [apply Hstep; exact Hfirst | exact Hrest].
Qed.

Lemma ends_sound (r : regex) :
  forall p q, In q (ends fl r p) -> Matches fl r p q.
Proof.
  induction r as [ | c | ranges | r1 IH1 r2 IH2 | r1 IH1 r2 IH2 | r IH | r IH
                 | n r IH | | ]; intros [n0 s] q Hin; cbn [ends snd fst] in Hin.
  - destruct Hin as [<- | []]. constructor.
  - destruct s as [|a rest]; [contradiction|].
    destruct (Ascii.eqb_spec a c) as [-> | _]; [|contradiction].
    destruct Hin as [<- | []]. constructor.
  - destruct s as [|a rest]; [contradiction|].
    destruct (in_class ranges a) eqn:Hcls; [|contradiction].
    destruct Hin as [<- | []]. constructor. exact Hcls.
  - apply in_flat_map in Hin. destruct Hin as [q1 [Hq1 Hq]].
    apply M_cat with q1; [apply IH1 | apply IH2]; assumption.
  - apply in_app_or in Hin. destruct Hin as [Hl | Hr].
    + apply M_alt_left. apply IH1. exact Hl.
    + apply M_alt_right. apply IH2. exact Hr.
  - eapply plus_iter_sound; [exact IH | exact Hin].
  - apply in_app_or in Hin. destruct Hin as [Hsome | [<- | []]].
    + apply M_opt_some. apply IH. exact Hsome.
    + apply M_opt_none.
  - eapply rep_iter_sound in Hin; [|exact IH].
    destruct Hin as [p [[<- | []] Hm]].
    exact Hm.
  - destruct (Nat.eqb_spec n0 0) as [-> | _]; [|contradiction].
    destruct Hin as [<- | []]. constructor.
  - destruct (at_eol fl s) eqn:Heol; [|contradiction].
    destruct Hin as [<- | []]. constructor. exact Heol.
Qed.

Lemma plus_iter_complete (step : pos -> list pos) (r : regex) :
  (forall p q, Matches fl r p q -> In q (step p)) ->
  forall p q, Matches fl (Plus r) p q ->
  forall fuel, (String.length (snd p) < fuel)%nat ->
  In q (plus_iter step fuel p).
Proof.
  intros Hstep p q Hm. remember (Plus r) as pr eqn:Hpr.
  induction Hm as [ | | | | | | r0 p q Hfirst _
                  | r0 p q u Hfirst _ Hrest IHrest | | | | | | ];
    try discriminate Hpr; injection Hpr as ->; intros fuel Hfuel;
    (destruct fuel as [|fuel]; [lia|]); simpl; apply in_flat_map.
  - exists q. split; [apply Hstep; exact Hfirst|].
    apply in_or_app. right. left. reflexivity.
  - destruct (matches_progress Hfirst) as [Hless | ->].
    + exists q. split; [apply Hstep; exact Hfirst|].
      apply in_or_app. left.
      apply Nat.ltb_lt in Hless. rewrite Hless.
      apply IHrest; [reflexivity|]. apply Nat.ltb_lt in Hless. lia.
    + specialize (IHrest eq_refl (S fuel) Hfuel). simpl in IHrest.
      apply in_flat_map in IHrest. exact IHrest.
Qed.

Lemma rep_iter_complete (step : pos -> list pos) (r : regex) :
  (forall p q, Matches fl r p q -> In q (step p)) ->
  forall n p q ps, Matches fl (Rep n r) p q -> In p ps ->
  In q (rep_iter step n ps).
Proof.
  intros Hstep. induction n as [|n IH]; intros p q ps Hm Hp;
    inversion Hm; subst; simpl.
  - exact Hp.
  - match goal with
    | H1 : Matches fl r p ?q1, H2 : Matches fl (Rep n r) ?q1 q |- _ =>
        apply (IH q1 q); [exact H2|];
        apply in_flat_map; exists p; split; [exact Hp | apply Hstep; exact H1]
    end.
Qed.

Lemma ends_complete (r : regex) :
  forall p q, Matches fl r p q -> In q (ends fl r p).
Proof.
  induction r as [ | c | ranges | r1 IH1 r2 IH2 | r1 IH1 r2 IH2 | r IH | r IH
                 | n r IH | | ]; intros p q Hm.
  - inversion Hm; subst. left. reflexivity.
  - inversion Hm; subst. cbn [ends snd fst]. rewrite Ascii.eqb_refl.
    left. reflexivity.
  - inversion Hm; subst. cbn [ends snd fst].
    match goal with H : in_class _ _ = true |- _ => rewrite H end.
    left. reflexivity.
  - inversion Hm; subst. cbn [ends]. apply in_flat_map.
    match goal with
    | H1 : Matches fl r1 p ?q1 |- _ => exists q1
    end. split; [apply IH1 | apply IH2]; assumption.
  - inversion Hm; subst; cbn [ends]; apply in_or_app.
    + left. apply IH1. assumption.
    + right. apply IH2. assumption.
  - cbn [ends]. eapply plus_iter_complete; [exact IH | exact Hm | lia].
  - inversion Hm; subst; cbn [ends]; apply in_or_app.
    + left. apply IH. assumption.
    + right. left. reflexivity.
  - cbn [ends].
    eapply rep_iter_complete; [exact IH | exact Hm | left; reflexivity].
  - inversion Hm; subst. left. reflexivity.
  - inversion Hm; subst. cbn [ends].
    match goal with H : at_eol _ _ = true |- _ => rewrite H end.
    left. reflexivity.
Qed.

(** The positions the matcher returns are those of the relation. *)
Theorem ends_correct (r : regex) (p q : pos) :
  In q (ends fl r p) <-> Matches fl r p q.
Proof. split; [apply ends_sound | apply ends_complete]. Qed.

Lemma matches_at_correct (r : regex) (p : pos) :
  matches_at fl r p = true <-> exists q, Matches fl r p q.
Proof.
  unfold matches_at. split.
  - destruct (ends fl r p) as [|q qs] eqn:E; [discriminate|].
    intros _. exists q. apply ends_sound. rewrite E. left. reflexivity.
  - intros [q Hq]. apply ends_complete in Hq.
    destruct (ends fl r p); [contradiction | reflexivity].
Qed.

End Matcher.

(** ** The languages of the patterns *)

Section Languages.

Import Regex.

Variable fl : flavour.

Lemma consumed_here (w : string) (p : pos) (rest : string) :
  snd p = w ++ rest ->
  consumed w p ((fst p + String.length w)%nat, rest).
Proof. intros H. split; [exact H | reflexivity]. Qed.

Lemma consumed_empty (p q : pos) : consumed "" p q <-> q = p.
Proof.
  split.
  - intros [Hs Hn]. destruct p, q. simpl in *. subst. f_equal. lia.
  - intros ->. apply consumed_nothing.
Qed.

Lemma matches_cat (r1 r2 : regex) (p u : pos) :
  Matches fl (Cat r1 r2) p u
  <-> exists q, Matches fl r1 p q /\ Matches fl r2 q u.
Proof.
  split.
  - intros H. inversion H; subst. eauto.
  - intros [q [H1 H2]]. exact (M_cat H1 H2).
Qed.

Lemma matches_chr (c : ascii) (p q : pos) :
  Matches fl (Chr c) p q <-> consumed (String c "") p q.
Proof.
  split.
  - intros H. inversion H; subst. split; simpl; [reflexivity | lia].
  - intros [Hs Hn]. destruct p as [n s], q as [m rest]. simpl in *. subst.
    replace (n + 1)%nat with (S n) by lia. constructor.
Qed.

Lemma matches_cls (ranges : list (ascii * ascii)) (p q : pos) :
  Matches fl (Cls ranges) p q
  <-> exists a, in_class ranges a = true /\ consumed (String a "") p q.
Proof.
  split.
  - intros H. inversion H; subst. exists a. split; [assumption|].
    split; simpl; [reflexivity | lia].
  - intros [a [Ha [Hs Hn]]]. destruct p as [n s], q as [m rest].
    simpl in *. subst. replace (n + 1)%nat with (S n) by lia.
    constructor. exact Ha.
Qed.

Lemma matches_bol (p q : pos) :
  Matches fl Bol p q <-> q = p /\ fst p = 0%nat.
Proof.
  split.
  - intros H. inversion H; subst. split; reflexivity.
  - intros [-> Hn]. destruct p as [n s]. simpl in Hn. subst. constructor.
Qed.

Lemma matches_eol (p q : pos) :
  Matches fl Eol p q <-> q = p /\ at_eol fl (snd p) = true.
Proof.
  split.
  - intros H. inversion H; subst. split; [reflexivity | assumption].
  - intros [-> H]. constructor. exact H.
Qed.

Lemma matches_opt (r : regex) (p q : pos) :
  Matches fl (Opt r) p q <-> Matches fl r p q \/ q = p.
Proof.
  split.
  - intros H. inversion H; subst; [left; assumption | right; reflexivity].
  - intros [H | ->]; [apply M_opt_some; exact H | apply M_opt_none].
Qed.

(** A run of literal characters matches exactly itself. *)
Lemma matches_lit (w : string) :
  forall p q, Matches fl (lit w) p q <-> consumed w p q.
Proof.
  induction w as [|c w IH]; intros p q.
  - cbn [lit]. rewrite consumed_empty. split.
    + intros H. inversion H; subst. reflexivity.
    + intros ->. constructor.
  - destruct w as [|d w].
    + cbn [lit]. apply matches_chr.
    + change (lit (String c (String d w)))
        with (Cat (Chr c) (lit (String d w))).
      rewrite matches_cat. split.
      * intros [u [Hc Hw]]. apply matches_chr in Hc. apply IH in Hw.
        exact (consumed_step Hc Hw).
      * intros [Hs Hn].
        exists ((fst p + 1)%nat, String d w ++ snd q). split.
        -- apply matches_chr. split; [exact Hs | reflexivity].
        -- apply IH. split; [reflexivity|].
           cbn [fst]. rewrite Hn. cbn [String.length]. lia.
Qed.

(** [[...]+] matches the non-empty runs of characters of the class. *)
Lemma matches_plus_cls (ranges : list (ascii * ascii)) (p q : pos) :
  Matches fl (Plus (Cls ranges)) p q
  <-> exists w, w <> "" /\ all_in_class ranges w = true /\ consumed w p q.
Proof.
  split.
  - intros H. remember (Plus (Cls ranges)) as pr eqn:Hpr.
    induction H as [ | | | | | | r p q Hfirst _
                   | r p q u Hfirst _ Hrest IHrest | | | | | | ];
      try discriminate Hpr; injection Hpr as ->.
    + apply matches_cls in Hfirst. destruct Hfirst as [a [Ha Hc]].
      exists (String a ""). repeat split; try apply Hc; [discriminate|].
      simpl. rewrite Ha. reflexivity.
    + apply matches_cls in Hfirst. destruct Hfirst as [a [Ha Hc]].
      destruct (IHrest eq_refl) as [w [_ [Hall Hw]]].
      exists (String a w). split; [discriminate|]. split.
      * simpl. rewrite Ha, Hall. reflexivity.
      * exact (consumed_step Hc Hw).
  - intros [w [Hne [Hall Hc]]]. revert p Hc.
    induction w as [|a w IH]; intros p Hc; [contradiction Hne; reflexivity|].
    simpl in Hall. apply andb_true_iff in Hall. destruct Hall as [Ha Hall].
    destruct Hc as [Hs Hn].
    assert (Hfirst : Matches fl (Cls ranges) p ((fst p + 1)%nat, w ++ snd q)).
    { apply matches_cls. exists a. split; [exact Ha|].
      split; [exact Hs | reflexivity]. }
    destruct w as [|b w].
    + apply M_plus_once. simpl in *.
      replace q with ((fst p + 1)%nat, snd q) by (destruct q; simpl in *; f_equal; lia).
      exact Hfirst.
    + apply M_plus_more with ((fst p + 1)%nat, String b w ++ snd q);
        [exact Hfirst|].
      apply IH; [discriminate | exact Hall |].
      split; [reflexivity|]. cbn [fst]. rewrite Hn. cbn [String.length]. lia.
Qed.

(** [[...]{n}] matches the runs of [n] characters of the class. *)
Lemma matches_rep_cls (ranges : list (ascii * ascii)) (n : nat) :
  forall p q,
  Matches fl (Rep n (Cls ranges)) p q
  <-> exists w, String.length w = n /\ all_in_class ranges w = true
                /\ consumed w p q.
Proof.
  induction n as [|n IH]; intros p q; split.
  - intros H. inversion H; subst. exists "". repeat split. simpl. lia.
  - intros [w [Hlen [_ Hc]]]. destruct w; [|discriminate Hlen].
    apply consumed_empty in Hc. subst. constructor.
  - intros H. inversion H; subst.
    match goal with
    | H1 : Matches fl (Cls ranges) p ?q1,
      H2 : Matches fl (Rep n (Cls ranges)) ?q1 q |- _ =>
        apply matches_cls in H1; destruct H1 as [a [Ha Hc]];
        apply IH in H2; destruct H2 as [w [Hlen [Hall Hw]]]
    end.
    exists (String a w). split; [simpl; rewrite Hlen; reflexivity|]. split.
    + simpl. rewrite Ha, Hall. reflexivity.
    + exact (consumed_step Hc Hw).
  - intros [w [Hlen [Hall [Hs Hn]]]]. destruct w as [|a w]; [discriminate Hlen|].
    simpl in Hall. apply andb_true_iff in Hall. destruct Hall as [Ha Hall].
    apply M_rep_succ with ((fst p + 1)%nat, w ++ snd q).
    + apply matches_cls. exists a. split; [exact Ha|].
      split; [exact Hs | reflexivity].
    + apply IH. exists w. split; [simpl in Hlen; lia|]. split; [exact Hall|].
      split; [reflexivity|]. cbn [fst]. rewrite Hn. cbn [String.length]. lia.
Qed.

End Languages.

Section PatternLanguages.

Import Regex models_repository.

Lemma search_anchored (fl : flavour) (r : regex) (s : string) :
  forall n, n <> 0%nat -> search_from fl (Cat Bol r) n s = false.
Proof.
  induction s as [|a s IH]; intros n Hn; cbn [search_from];
    unfold matches_at; cbn [ends fst];
    destruct (Nat.eqb_spec n 0) as [-> | _]; try (contradiction Hn; reflexivity);
    cbn [flat_map List.length Nat.eqb negb orb].
  - reflexivity.
  - apply IH. discriminate.
Qed.

(** A pattern that begins with [^] is matched at the start or not at all. *)
Lemma is_match_anchored (r : regex) (s : string) :
  is_match (Cat Bol r) s = matches_at RustRegex (Cat Bol r) (0%nat, s).
Proof.
  unfold is_match. destruct s as [|a s]; cbn [search_from].
  - apply orb_false_r.
  - rewrite search_anchored by discriminate. apply orb_false_r.
Qed.

(** The identifiers that [^repo-[a-f0-9]{8}$] accepts: "repo-" and eight
    characters among [a-f] and [0-9]; thirteen characters in all. *)
Theorem repository_id_language (s : string) :
  is_match models_chat.repository_id_pattern s = true
  <-> exists h,
        s = "repo-" ++ h /\ String.length h = 8%nat
        /\ all_in_class [("a", "f"); ("0", "9")]%char h = true.
Proof.
  unfold models_chat.repository_id_pattern.
  rewrite is_match_anchored, matches_at_correct. split.
  - intros [q Hm].
    apply matches_cat in Hm. destruct Hm as [p1 [Hbol Hm]].
    apply matches_bol in Hbol. destruct Hbol as [-> _].
    apply matches_cat in Hm. destruct Hm as [p2 [Hlit Hm]].
    apply matches_lit in Hlit. destruct Hlit as [Hs _].
    apply matches_cat in Hm. destruct Hm as [p3 [Hrep Heol]].
    apply matches_rep_cls in Hrep. destruct Hrep as [h [Hlen [Hall [Hh _]]]].
    apply matches_eol in Heol. destruct Heol as [-> Hend].
    cbn [at_eol] in Hend. apply String.eqb_eq in Hend.
    rewrite Hend, append_empty_r in Hh.
    exists h. cbn [snd] in Hs. rewrite Hs, Hh. repeat split; assumption.
  - intros [h [-> [Hlen Hall]]].
    exists (13%nat, ""). apply matches_cat. exists (0%nat, "repo-" ++ h).
    split; [apply matches_bol; split; reflexivity|].
    apply matches_cat. exists (5%nat, h).
    split; [apply matches_lit; split; reflexivity|].
    apply matches_cat. exists (13%nat, "").
    split; [|apply matches_eol; split; reflexivity].
    apply matches_rep_cls. exists h. split; [exact Hlen|]. split; [exact Hall|].
    split; [cbn [snd]; rewrite append_empty_r; reflexivity|].
    cbn [fst]. rewrite Hlen. reflexivity.
Qed.

(** The URLs that [validate_github_url] accepts: the GitHub prefix, an
    owner and a repository name made of letters, digits, [.], [_] and [-],
    an optional final [/] and, Python's [$] allowing it, an optional final
    newline. *)
Theorem github_url_language (url : string) :
  re_match github_pattern url = true
  <-> exists owner name slash tail,
        url = "https://github.com/" ++ owner ++ "/" ++ name ++ slash ++ tail
        /\ owner <> "" /\ all_in_class github_name_class owner = true
        /\ name <> "" /\ all_in_class github_name_class name = true
        /\ (slash = "" \/ slash = "/")
        /\ (tail = "" \/ tail = String newline "").
Proof.
  unfold re_match, github_pattern. rewrite matches_at_correct. split.
  - intros [q Hm].
    apply matches_cat in Hm. destruct Hm as [p1 [Hbol Hm]].
    apply matches_bol in Hbol. destruct Hbol as [-> _].
    apply matches_cat in Hm. destruct Hm as [p2 [Hlit Hm]].
    apply matches_lit in Hlit. destruct Hlit as [Hurl _].
    apply matches_cat in Hm. destruct Hm as [p3 [Howner Hm]].
    apply matches_plus_cls in Howner.
    destruct Howner as [owner [Hne1 [Hall1 [Ho _]]]].
    apply matches_cat in Hm. destruct Hm as [p4 [Hsep Hm]].
    apply matches_chr in Hsep. destruct Hsep as [Hsep _].
    apply matches_cat in Hm. destruct Hm as [p5 [Hname Hm]].
    apply matches_plus_cls in Hname.
    destruct Hname as [name [Hne2 [Hall2 [Hn _]]]].
    apply matches_cat in Hm. destruct Hm as [p6 [Hopt Heol]].
    apply matches_eol in Heol. destruct Heol as [-> Hend].
    cbn [at_eol] in Hend. apply orb_true_iff in Hend.
    assert (Htail : snd p6 = "" \/ snd p6 = String newline "")
      by (destruct Hend as [H | H]; apply String.eqb_eq in H; auto).
    apply matches_opt in Hopt.
    assert (Hslash : exists slash,
              (slash = "" \/ slash = "/") /\ snd p5 = slash ++ snd p6).
    { destruct Hopt as [Hc | ->].
      - apply matches_chr in Hc. destruct Hc as [Hc _].
        exists "/". split; [right; reflexivity | exact Hc].
      - exists "". split; [left; reflexivity | reflexivity]. }
    destruct Hslash as [slash [Hslash Hp5]].
    exists owner, name, slash, (snd p6).
    cbn [snd] in Hurl. rewrite Hurl, Ho, Hsep, Hn, Hp5.
    repeat split; assumption.
  - intros [owner [name [slash [tail
             [-> [Hne1 [Hall1 [Hne2 [Hall2 [Hslash Htail]]]]]]]]]].
    set (n1 := (19 + String.length owner)%nat).
    set (n2 := (n1 + 1 + String.length name)%nat).
    exists ((n2 + String.length slash)%nat, tail).
    apply matches_cat. eexists. split;
      [apply matches_bol; split; reflexivity|].
    apply matches_cat.
    exists (19%nat, owner ++ "/" ++ name ++ slash ++ tail).
    split; [apply matches_lit; split; reflexivity|].
    apply matches_cat. exists (n1, "/" ++ name ++ slash ++ tail).
    split; [apply matches_plus_cls; exists owner;
            repeat split; assumption|].
    apply matches_cat. exists ((n1 + 1)%nat, name ++ slash ++ tail).
    split; [apply matches_chr; split; reflexivity|].
    apply matches_cat. exists (n2, slash ++ tail).
    split; [apply matches_plus_cls; exists name;
            repeat split; assumption|].
    apply matches_cat. exists ((n2 + String.length slash)%nat, tail).
    split.
    + apply matches_opt. destruct Hslash as [-> | ->].
      * right. cbn. f_equal. lia.
      * left. apply matches_chr. split; reflexivity.
    + apply matches_eol. split; [reflexivity|].
      destruct Htail as [-> | ->]; reflexivity.
Qed.

(** The same pattern with [$] read as the end of the text: nothing
    follows the optional final [/]. *)
Lemma github_url_strict_language (url : string) :
  matches_at RustRegex github_pattern (0%nat, url) = true
  <-> exists owner name slash,
        url = "https://github.com/" ++ owner ++ "/" ++ name ++ slash
        /\ owner <> "" /\ all_in_class github_name_class owner = true
        /\ name <> "" /\ all_in_class github_name_class name = true
        /\ (slash = "" \/ slash = "/").
Proof.
  unfold github_pattern. rewrite matches_at_correct. split.
  - intros [q Hm].
    apply matches_cat in Hm. destruct Hm as [p1 [Hbol Hm]].
    apply matches_bol in Hbol. destruct Hbol as [-> _].
    apply matches_cat in Hm. destruct Hm as [p2 [Hlit Hm]].
    apply matches_lit in Hlit. destruct Hlit as [Hurl _].
    apply matches_cat in Hm. destruct Hm as [p3 [Howner Hm]].
    apply matches_plus_cls in Howner.
    destruct Howner as [owner [Hne1 [Hall1 [Ho _]]]].
    apply matches_cat in Hm. destruct Hm as [p4 [Hsep Hm]].
    apply matches_chr in Hsep. destruct Hsep as [Hsep _].
    apply matches_cat in Hm. destruct Hm as [p5 [Hname Hm]].
    apply matches_plus_cls in Hname.
    destruct Hname as [name [Hne2 [Hall2 [Hn _]]]].
    apply matches_cat in Hm. destruct Hm as [p6 [Hopt Heol]].
    apply matches_eol in Heol. destruct Heol as [-> Hend].
    cbn [at_eol] in Hend. apply String.eqb_eq in Hend.
    apply matches_opt in Hopt.
    assert (Hslash : exists slash,
              (slash = "" \/ slash = "/") /\ snd p5 = slash).
    { destruct Hopt as [Hc | ->].
      - apply matches_chr in Hc. destruct Hc as [Hc _].
        exists "/". split; [right; reflexivity|].
        rewrite Hc, Hend. reflexivity.
      - exists "". split; [left; reflexivity | exact Hend]. }
    destruct Hslash as [slash [Hslash Hp5]].
    exists owner, name, slash.
    cbn [snd] in Hurl. rewrite Hurl, Ho, Hsep, Hn, Hp5.
    repeat split; assumption.
  - intros [owner [name [slash
             [-> [Hne1 [Hall1 [Hne2 [Hall2 Hslash]]]]]]]].
    set (n1 := (19 + String.length owner)%nat).
    set (n2 := (n1 + 1 + String.length name)%nat).
    exists ((n2 + String.length slash)%nat, "").
    apply matches_cat. eexists. split;
      [apply matches_bol; split; reflexivity|].
    apply matches_cat.
    exists (19%nat, owner ++ "/" ++ name ++ slash).
    split; [apply matches_lit; split; reflexivity|].
    apply matches_cat. exists (n1, "/" ++ name ++ slash).
    split; [apply matches_plus_cls; exists owner;
            repeat split; assumption|].
    apply matches_cat. exists ((n1 + 1)%nat, name ++ slash).
    split; [apply matches_chr; split; reflexivity|].
    apply matches_cat. exists (n2, slash).
    split; [apply matches_plus_cls; exists name;
            repeat split; assumption|].
    apply matches_cat. exists ((n2 + String.length slash)%nat, "").
    split.
    + apply matches_opt. destruct Hslash as [-> | ->].
      * right. cbn. f_equal. lia.
      * left. apply matches_chr. split; reflexivity.
    + apply matches_eol. split; reflexivity.
Qed.

End PatternLanguages.

(** ** The class hierarchy *)

Section ClassHierarchy.

Lemma pyclass_induction (P : pyclass -> Prop) :
  (forall m n bases, Forall P bases -> P (PyClass m n bases)) ->
  forall c, P c.
Proof.
  intros step. fix IH 1. intros [m n bases]. apply step.
  induction bases as [|b bases' IHbases]; constructor.
  - apply IH.
  - exact IHbases.
Qed.

Lemma same_class_eq (c d : pyclass) : same_class c d = true <-> c = d.
Proof.
  revert d. induction c as [m n bases IH] using pyclass_induction.
  intros [m' n' bases']. simpl.
  rewrite !andb_true_iff, !String.eqb_eq.
  assert (Hbases :
    (fix same_bases (l l' : list pyclass) {struct l} : bool :=
       match l, l' with
       | [], [] => true
       | b :: l1, b' :: l1' => same_class b b' && same_bases l1 l1'
       | _, _ => false
       end) bases bases' = true <-> bases = bases').
  { revert bases'. induction IH as [|b bs Hb _ IHbs]; intros [|b' bs'];
      try (split; [discriminate | discriminate]); try tauto.
    rewrite andb_true_iff, Hb, IHbs. split.
    - intros [-> ->]. reflexivity.
    - intros E. injection E as -> ->. split; reflexivity. }
  rewrite Hbases. split.
  - intros [[-> ->] ->]. reflexivity.
  - intros E. injection E as -> -> ->. repeat split.
Qed.

Lemma same_class_refl (c : pyclass) : same_class c c = true.
Proof. apply same_class_eq. reflexivity. Qed.

Lemma issubclass_unfold (c d : pyclass) :
  issubclass c d
  = same_class c d || existsb (fun b => issubclass b d) (class_bases c).
Proof. destruct c. reflexivity. Qed.

Lemma issubclass_refl (c : pyclass) : issubclass c c = true.
Proof. rewrite issubclass_unfold, same_class_refl. reflexivity. Qed.

Lemma issubclass_trans (c d e : pyclass) :
  issubclass c d = true -> issubclass d e = true -> issubclass c e = true.
Proof.
  induction c as [m n bases IH] using pyclass_induction.
  rewrite (issubclass_unfold (PyClass m n bases) d),
          (issubclass_unfold (PyClass m n bases) e).
  cbn [class_bases]. intros Hcd Hde.
  apply orb_true_iff in Hcd. destruct Hcd as [Hsame | Hbase].
  - apply same_class_eq in Hsame. subst d.
    rewrite (issubclass_unfold (PyClass m n bases) e) in Hde. exact Hde.
  - apply orb_true_iff. right.
    apply existsb_exists in Hbase. destruct Hbase as [b [Hin Hb]].
    apply existsb_exists. exists b. split; [exact Hin|].
    rewrite Forall_forall in IH. apply IH; assumption.
Qed.

(** An instance of a class is an instance of each class above it. *)
Lemma isinstance_up (e : exn) (c d : pyclass) :
  issubclass c d = true -> isinstance e c = true -> isinstance e d = true.
Proof.
  unfold isinstance. intros Hcd Hec. exact (issubclass_trans _ _ _ Hec Hcd).
Qed.

End ClassHierarchy.

(** ** The two copies of the taxonomy classes *)

Section Counterpart.

Import Contract.

Lemma counterpart_module_involutive (m : string) :
  counterpart_module (counterpart_module m) = m.
Proof.
  unfold counterpart_module.
  destruct (String.eqb m exceptions.module_name) eqn:Hreal.
  - apply String.eqb_eq in Hreal. subst m. reflexivity.
  - destruct (String.eqb m simulation_main.module_name) eqn:Hsim.
    + apply String.eqb_eq in Hsim. subst m. reflexivity.
    + rewrite Hreal, Hsim. reflexivity.
Qed.

Lemma counterpart_involutive (c : pyclass) : counterpart (counterpart c) = c.
Proof.
  induction c as [m n bases IH] using pyclass_induction. simpl.
  rewrite counterpart_module_involutive. f_equal.
  rewrite map_map. induction IH as [|b bs Hb _ IHbs]; simpl.
  - reflexivity.
  - rewrite Hb, IHbs. reflexivity.
Qed.

Lemma counterpart_injective (c d : pyclass) :
  counterpart c = counterpart d -> c = d.
Proof.
  intros E. rewrite <- (counterpart_involutive c), <- (counterpart_involutive d).
  rewrite E. reflexivity.
Qed.

Lemma same_class_counterpart (c d : pyclass) :
  same_class (counterpart c) (counterpart d) = same_class c d.
Proof.
  apply eq_true_iff_eq. rewrite !same_class_eq. split.
  - apply counterpart_injective.
  - intros ->. reflexivity.
Qed.

Lemma issubclass_counterpart (c d : pyclass) :
  issubclass (counterpart c) (counterpart d) = issubclass c d.
Proof.
  induction c as [m n bases IH] using pyclass_induction.
  rewrite (issubclass_unfold (counterpart (PyClass m n bases))),
          (issubclass_unfold (PyClass m n bases)).
  rewrite same_class_counterpart. f_equal.
  cbn [counterpart class_bases].
  induction IH as [|b bs Hb _ IHbs]; simpl.
  - reflexivity.
  - rewrite Hb, IHbs. reflexivity.
Qed.

(** A test of the simulation on the counterpart of [e] is the same test
    of the real router on [e]. *)
Lemma isinstance_counterpart (e : exn) (c : pyclass) :
  isinstance (counterpart_exn e) (counterpart c) = isinstance e c.
Proof. apply issubclass_counterpart. Qed.

End Counterpart.

(** ** Building an error body *)

Section ErrorBody.

Import pydantic models_repository models_chat Contract.

Lemma check_length_nil (field : string) (lo hi : nat) (v : string) :
  check_length field lo hi v = [] <-> Str.length_between lo hi v = true.
Proof.
  unfold check_length, Str.length_between.
  rewrite andb_true_iff, !Nat.leb_le.
  destruct (Nat.ltb_spec hi (String.length v));
    destruct (Nat.ltb_spec (String.length v) lo);
    split; intros Hx; try discriminate Hx; try reflexivity; lia.
Qed.

Lemma IngestErrorResponse_fits (error error_code : string) :
  Str.length_between 1 1000 error = true ->
  Str.length_between 1 50 error_code = true ->
  IngestErrorResponse.new error error_code
  = Return {| IngestErrorResponse.success := false;
              IngestErrorResponse.error := error;
              IngestErrorResponse.error_code := error_code |}.
Proof.
  intros He Hc. unfold IngestErrorResponse.new, IngestErrorResponse.errors.
  rewrite (proj2 (check_length_nil "error" _ _ _) He).
  rewrite (proj2 (check_length_nil "error_code" _ _ _) Hc). reflexivity.
Qed.

Lemma ChatErrorResponse_fits (error error_code : string) :
  Str.length_between 1 1000 error = true ->
  Str.length_between 1 50 error_code = true ->
  ChatErrorResponse.new error error_code
  = Return {| ChatErrorResponse.success := false;
              ChatErrorResponse.error := error;
              ChatErrorResponse.error_code := error_code |}.
Proof.
  intros He Hc. unfold ChatErrorResponse.new, ChatErrorResponse.errors.
  rewrite (proj2 (check_length_nil "error" _ _ _) He).
  rewrite (proj2 (check_length_nil "error_code" _ _ _) Hc). reflexivity.
Qed.

(** A text outside 1..1000 characters makes the constructor raise. *)
Lemma IngestErrorResponse_misfit (error error_code : string) :
  Str.length_between 1 1000 error = false ->
  returned (IngestErrorResponse.new error error_code) = false.
Proof.
  intros He. unfold IngestErrorResponse.new, IngestErrorResponse.errors.
  destruct (check_length "error" 1 1000 error) eqn:Hcheck.
  - apply check_length_nil in Hcheck. congruence.
  - reflexivity.
Qed.

Lemma ChatErrorResponse_misfit (error error_code : string) :
  Str.length_between 1 1000 error = false ->
  returned (ChatErrorResponse.new error error_code) = false.
Proof.
  intros He. unfold ChatErrorResponse.new, ChatErrorResponse.errors.
  destruct (check_length "error" 1 1000 error) eqn:Hcheck.
  - apply check_length_nil in Hcheck. congruence.
  - reflexivity.
Qed.

End ErrorBody.

(** ** The classification tables *)

Section Tables.

Import Contract error_handlers models_repository models_chat.

(** Each ingestion kind is sent to the branch of its row. *)
Lemma handle_ingestion_error_row (k : Ingestion.kind) (m : string) :
  handle_ingestion_error (Exn (Ingestion.class_of k) m)
  = (body <- IngestErrorResponse.new
               (Ingestion.shown k m) (snd (Ingestion.row k)) ;;
     Return {| status_code := fst (Ingestion.row k);
               content := IngestErrorResponse.dict body |}).
Proof. destruct k; reflexivity. Qed.

(** Each chat kind is sent to the branch of its row. *)
Lemma handle_chat_error_row (k : Chat.kind) (m : string) :
  handle_chat_error (Exn (Chat.class_of k) m)
  = (body <- ChatErrorResponse.new (Chat.shown k m) (snd (Chat.row k)) ;;
     Return {| status_code := fst (Chat.row k);
               content := ChatErrorResponse.dict body |}).
Proof. destruct k; reflexivity. Qed.

Lemma ingestion_kind_is_exception (k : Ingestion.kind) :
  issubclass (Ingestion.class_of k) Exception = true.
Proof. destruct k; reflexivity. Qed.

Lemma chat_kind_is_exception (k : Chat.kind) :
  issubclass (Chat.class_of k) Exception = true.
Proof. destruct k; reflexivity. Qed.

Lemma ingestion_code_fits (k : Ingestion.kind) :
  Str.length_between 1 50 (snd (Ingestion.row k)) = true.
Proof. destruct k; reflexivity. Qed.

Lemma chat_code_fits (k : Chat.kind) :
  Str.length_between 1 50 (snd (Chat.row k)) = true.
Proof. destruct k; reflexivity. Qed.

(** With a text of 1 to 1000 characters every ingestion row holds: the
    route answers with the row's status and code and with that text. *)
Lemma ingestion_row_when_message_fits
    (k : Ingestion.kind) (m : string) (printed : list string)
    (request : IngestRequest.t) :
  Str.length_between 1 1000 (Ingestion.shown k m) = true ->
  fastapi.outcome
    (routes.ingest_repository
       (raising printed (Exn (Ingestion.class_of k) m)) request)
  = Return (error_response (fst (Ingestion.row k)) (Ingestion.shown k m)
              (snd (Ingestion.row k))).
Proof.
  intros Hm. unfold routes.ingest_repository, raising.
  cbn [fastapi.outcome]. unfold isinstance. cbn [exn_class].
  rewrite ingestion_kind_is_exception, handle_ingestion_error_row.
  rewrite (IngestErrorResponse_fits _ _ Hm (ingestion_code_fits k)).
  reflexivity.
Qed.

(** With a text of 1 to 1000 characters every chat row holds. *)
Lemma chat_row_when_message_fits
    (k : Chat.kind) (m : string) (printed : list string)
    (request : ChatRequest.t) :
  Str.length_between 1 1000 (Chat.shown k m) = true ->
  fastapi.outcome
    (routes.chat_with_repository
       (raising printed (Exn (Chat.class_of k) m)) request)
  = Return (error_response (fst (Chat.row k)) (Chat.shown k m)
              (snd (Chat.row k))).
Proof.
  intros Hm. unfold routes.chat_with_repository, raising.
  cbn [fastapi.outcome]. unfold isinstance. cbn [exn_class].
  rewrite chat_kind_is_exception, handle_chat_error_row.
  rewrite (ChatErrorResponse_fits _ _ Hm (chat_code_fits k)).
  reflexivity.
Qed.

(** The "not implemented" rows carry a fixed text and hold for every
    raised text. *)
Lemma not_implemented_rows (m : string) (printed : list string)
    (ingest : IngestRequest.t) (chat : ChatRequest.t) :
  fastapi.outcome
    (routes.ingest_repository
       (raising printed (Exn NotImplementedError m)) ingest)
  = Return (error_response 501 "Ingestion agent not yet implemented"
              "NOT_IMPLEMENTED")
  /\ fastapi.outcome
       (routes.chat_with_repository
          (raising printed (Exn NotImplementedError m)) chat)
     = Return (error_response 501 "Chat agent not yet implemented"
                 "NOT_IMPLEMENTED").
Proof. split; reflexivity. Qed.

End Tables.

(** ** Classification of collaborator failures *)

Section Classification.

Import Contract error_handlers models_repository models_chat.

(** C1: every kind of the tables, raised by the collaborator, is answered
    with the status and error code of its row.  The code does not do so
    when the kind is raised with a text that the error body refuses:
    [InvalidURL] raised with an empty text and [ProcessingFailed] raised
    with a text of 1001 characters (ingestion), [RepoNotIndexed] raised
    with an empty text (chat).  Each is sent to the branch of its row,
    the branch builds its error body from that text, the body's [error]
    field wants 1 to 1000 characters, and the constructor's
    [ValidationError] leaves the route function: no (400, INVALID_URL),
    no (422, PROCESSING_FAILED) and no (404, REPO_NOT_INDEXED) is
    returned. *)
Theorem C1_row_lost_when_text_is_refused
    (printed : list string) (ingest : IngestRequest.t) (chat : ChatRequest.t) :
  let empty_url_error :=
    fastapi.outcome
      (routes.ingest_repository
         (raising printed (Exn (Ingestion.class_of Ingestion.InvalidURL) ""))
         ingest) in
  let long_processing_error :=
    fastapi.outcome
      (routes.ingest_repository
         (raising printed
            (Exn (Ingestion.class_of Ingestion.ProcessingFailed)
               (Str.repeat "x" 1001)))
         ingest) in
  let empty_index_error :=
    fastapi.outcome
      (routes.chat_with_repository
         (raising printed (Exn (Chat.class_of Chat.RepoNotIndexed) ""))
         chat) in
  empty_url_error
  = Raise (pydantic.validation_error "IngestErrorResponse"
             [{| pydantic.loc := ["error"];
                 pydantic.type_ := "string_too_short" |}])
  /\ wire_pair empty_url_error <> Some (400%Z, Some (JStr "INVALID_URL"))
  /\ long_processing_error
     = Raise (pydantic.validation_error "IngestErrorResponse"
                [{| pydantic.loc := ["error"];
                    pydantic.type_ := "string_too_long" |}])
  /\ wire_pair long_processing_error
     <> Some (422%Z, Some (JStr "PROCESSING_FAILED"))
  /\ empty_index_error
     = Raise (pydantic.validation_error "ChatErrorResponse"
                [{| pydantic.loc := ["error"];
                    pydantic.type_ := "string_too_short" |}])
  /\ wire_pair empty_index_error
     <> Some (404%Z, Some (JStr "REPO_NOT_INDEXED")).
Proof.
  cbv zeta.
  assert (Hlong :
    fastapi.outcome
      (routes.ingest_repository
         (raising printed
            (Exn (Ingestion.class_of Ingestion.ProcessingFailed)
               (Str.repeat "x" 1001)))
         ingest)
    = Raise (pydantic.validation_error "IngestErrorResponse"
               [{| pydantic.loc := ["error"];
                   pydantic.type_ := "string_too_long" |}]))
    by (vm_compute; reflexivity).
  rewrite Hlong.
  repeat split; try reflexivity; cbn; discriminate.
Qed.

(** The same loss for every row whose text comes from the exception, and
    for every text outside 1..1000 characters. *)
Lemma ingestion_row_lost_when_message_misfits
    (k : Ingestion.kind) (m : string) :
  Ingestion.shown k m = m ->
  Str.length_between 1 1000 m = false ->
  returned (handle_ingestion_error (Exn (Ingestion.class_of k) m)) = false.
Proof.
  intros Hshown Hm. rewrite handle_ingestion_error_row, Hshown.
  pose proof (IngestErrorResponse_misfit m (snd (Ingestion.row k)) Hm) as Hnew.
  destruct (IngestErrorResponse.new m (snd (Ingestion.row k)));
    [discriminate Hnew | reflexivity].
Qed.

Lemma chat_row_lost_when_message_misfits (k : Chat.kind) (m : string) :
  Chat.shown k m = m ->
  Str.length_between 1 1000 m = false ->
  returned (handle_chat_error (Exn (Chat.class_of k) m)) = false.
Proof.
  intros Hshown Hm. rewrite handle_chat_error_row, Hshown.
  pose proof (ChatErrorResponse_misfit m (snd (Chat.row k)) Hm) as Hnew.
  destruct (ChatErrorResponse.new m (snd (Chat.row k)));
    [discriminate Hnew | reflexivity].
Qed.

Lemma unnamed_gets_fallback (ep : endpoint) (e : exn) :
  named_branch ep e = false -> classifier ep e = Return (fallback ep).
Proof.
  intros He. destruct ep; cbn [named_branch] in He;
    repeat (apply orb_false_iff in He; destruct He as [He ?]);
    cbn [classifier];
    unfold handle_ingestion_error, handle_chat_error;
    repeat match goal with
           | H : isinstance e _ = false |- _ => rewrite H; clear H
           end;
    reflexivity.
Qed.

(** Every exception is taken by a named branch or gets the fallback. *)
Lemma classifier_covers_every_exception (ep : endpoint) (e : exn) :
  named_branch ep e = true \/ classifier ep e = Return (fallback ep).
Proof.
  destruct (named_branch ep e) eqn:Hnamed.
  - left. reflexivity.
  - right. apply unnamed_gets_fallback. exact Hnamed.
Qed.

End Classification.

(** ** Recovery at the handler boundary *)

Section Recovery.

Import Contract error_handlers models_repository models_chat.

Ltac take_branch e :=
  repeat match goal with
         | |- context [if isinstance e ?c then _ else _] =>
             destruct (isinstance e c)
         end.

(** When the text of the exception has 1 to 1000 characters, both
    classifiers return a well-formed error body, whatever the class. *)
Lemma handle_ingestion_error_well_formed (e : exn) :
  Str.length_between 1 1000 (str e) = true ->
  well_formed_error (handle_ingestion_error e).
Proof.
  intros Hm. unfold handle_ingestion_error. take_branch e;
    try (rewrite IngestErrorResponse_fits by first [exact Hm | reflexivity]);
    unfold well_formed_error, error_response, error_body;
    do 3 eexists; (split; [reflexivity | split; [|reflexivity]]);
    solve [exact Hm | reflexivity].
Qed.

Lemma handle_chat_error_well_formed (e : exn) :
  Str.length_between 1 1000 (str e) = true ->
  well_formed_error (handle_chat_error e).
Proof.
  intros Hm. unfold handle_chat_error. take_branch e;
    try (rewrite ChatErrorResponse_fits by first [exact Hm | reflexivity]);
    unfold well_formed_error, error_response, error_body;
    do 3 eexists; (split; [reflexivity | split; [|reflexivity]]);
    solve [exact Hm | reflexivity].
Qed.

Lemma raised_is_not_well_formed (e : exn) :
  ~ well_formed_error (Raise e).
Proof. intros [s [m [c [H _]]]]. discriminate H. Qed.

(** Exactly when a classifier returns: the exception is taken by no
    branch that builds its answer from the exception's text, or that text
    has 1 to 1000 characters. *)
Lemma returned_ingest_body (m c : string)
    (k : IngestErrorResponse.t -> JSONResponse) :
  Str.length_between 1 50 c = true ->
  returned (body <- IngestErrorResponse.new m c ;; Return (k body))
  = Str.length_between 1 1000 m.
Proof.
  intros Hc. destruct (Str.length_between 1 1000 m) eqn:Hm.
  - rewrite (IngestErrorResponse_fits _ _ Hm Hc). reflexivity.
  - pose proof (IngestErrorResponse_misfit m c Hm) as Hnew.
    destruct (IngestErrorResponse.new m c); [discriminate Hnew | reflexivity].
Qed.

Lemma returned_chat_body (m c : string)
    (k : ChatErrorResponse.t -> JSONResponse) :
  Str.length_between 1 50 c = true ->
  returned (body <- ChatErrorResponse.new m c ;; Return (k body))
  = Str.length_between 1 1000 m.
Proof.
  intros Hc. destruct (Str.length_between 1 1000 m) eqn:Hm.
  - rewrite (ChatErrorResponse_fits _ _ Hm Hc). reflexivity.
  - pose proof (ChatErrorResponse_misfit m c Hm) as Hnew.
    destruct (ChatErrorResponse.new m c); [discriminate Hnew | reflexivity].
Qed.

Lemma classifier_returns_iff (ep : endpoint) (e : exn) :
  returned (classifier ep e)
  = negb (text_branch ep e) || Str.length_between 1 1000 (str e).
Proof.
  destruct ep; cbn [classifier text_branch];
    unfold handle_ingestion_error, handle_chat_error;
    repeat match goal with
           | |- context [if isinstance e ?c then _ else _] =>
               destruct (isinstance e c); cbn [orb negb];
               [ first [ rewrite returned_ingest_body by reflexivity
                       | rewrite returned_chat_body by reflexivity ];
                 reflexivity | ]
           end;
    reflexivity.
Qed.

(** C3: an exception that no named branch takes is answered 500 with
    error code AGENT_ERROR and a generic message, and the classifier is
    total over all exceptions.  The first half holds of both classifiers:
    such an exception gets the fallback, whose text is fixed and not
    taken from the exception.  The code is not total.  A classifier
    returns exactly when the exception is taken by no branch that builds
    its body from the exception's text, or that text has 1 to 1000
    characters: [handle_chat_error(ValueError())] enters the
    QUERY_PROCESSING_FAILED branch, [handle_ingestion_error] enters the
    REPO_TOO_LARGE branch for a [RepoTooLargeError] whose text has 1001
    characters, and in both the constructor of the error body refuses the
    text and its [ValidationError] is raised by the classifier in place of
    an answer.  For every text outside 1 to 1000 characters each
    classifier has an exception on which it raises. *)
Theorem C3_classifier_is_not_total :
  (forall ep e,
     named_branch ep e = false -> classifier ep e = Return (fallback ep))
  /\ (forall ep,
        status_code (fallback ep) = 500%Z
        /\ field "error_code" (content (fallback ep))
           = Some (JStr "AGENT_ERROR")
        /\ field "error" (content (fallback ep))
           = Some (JStr (generic_message ep)))
  /\ (forall ep e,
        returned (classifier ep e)
        = negb (text_branch ep e) || Str.length_between 1 1000 (str e))
  /\ handle_chat_error (Exn ValueError "")
     = Raise (pydantic.validation_error "ChatErrorResponse"
                [{| pydantic.loc := ["error"];
                    pydantic.type_ := "string_too_short" |}])
  /\ handle_ingestion_error
       (Exn exceptions.RepoTooLargeError (Str.repeat "x" 1001))
     = Raise (pydantic.validation_error "IngestErrorResponse"
                [{| pydantic.loc := ["error"];
                    pydantic.type_ := "string_too_long" |}])
  /\ (forall ep m,
        Str.length_between 1 1000 m = false ->
        returned (classifier ep (Exn FileNotFoundError m)) = false).
Proof.
  split; [exact unnamed_gets_fallback|].
  split; [intros ep; destruct ep; repeat split|].
  split; [exact classifier_returns_iff|].
  split; [reflexivity|].
  split; [vm_compute; reflexivity|].
  intros ep m Hm. rewrite classifier_returns_iff.
  change (str (Exn FileNotFoundError m)) with m.
  rewrite Hm. destruct ep; reflexivity.
Qed.

(** C4: whatever the collaborator raises, the endpoint answers with a
    well-formed error body, and building that body never fails.  The code
    does not do so.  A [StorageError] raised without text and a
    [FileNotFoundError] whose text has 1001 characters are sent to their
    branches, [IngestErrorResponse(error=str(error), ...)] (for chat,
    [ChatErrorResponse]) rejects the text against its own bounds, and the
    [ValidationError] leaves the route function in place of a response. *)
Theorem C4_error_body_is_not_always_built
    (printed : list string) (ingest : IngestRequest.t) (chat : ChatRequest.t) :
  let empty := Exn exceptions.StorageError "" in
  let long := Exn FileNotFoundError (Str.repeat "x" 1001) in
  real_router Ingest ingest chat printed empty
  = Raise (pydantic.validation_error "IngestErrorResponse"
             [{| pydantic.loc := ["error"];
                 pydantic.type_ := "string_too_short" |}])
  /\ real_router Ingest ingest chat printed long
     = Raise (pydantic.validation_error "IngestErrorResponse"
                [{| pydantic.loc := ["error"];
                    pydantic.type_ := "string_too_long" |}])
  /\ real_router Converse ingest chat printed long
     = Raise (pydantic.validation_error "ChatErrorResponse"
                [{| pydantic.loc := ["error"];
                    pydantic.type_ := "string_too_long" |}])
  /\ ~ well_formed_error (real_router Ingest ingest chat printed empty)
  /\ ~ well_formed_error (real_router Ingest ingest chat printed long)
  /\ ~ well_formed_error (real_router Converse ingest chat printed long).
Proof.
  cbv zeta.
  assert (H1 : real_router Ingest ingest chat printed
                 (Exn exceptions.StorageError "")
               = Raise (pydantic.validation_error "IngestErrorResponse"
                          [{| pydantic.loc := ["error"];
                              pydantic.type_ := "string_too_short" |}]))
    by reflexivity.
  assert (H2 : real_router Ingest ingest chat printed
                 (Exn FileNotFoundError (Str.repeat "x" 1001))
               = Raise (pydantic.validation_error "IngestErrorResponse"
                          [{| pydantic.loc := ["error"];
                              pydantic.type_ := "string_too_long" |}]))
    by (vm_compute; reflexivity).
  assert (H3 : real_router Converse ingest chat printed
                 (Exn FileNotFoundError (Str.repeat "x" 1001))
               = Raise (pydantic.validation_error "ChatErrorResponse"
                          [{| pydantic.loc := ["error"];
                              pydantic.type_ := "string_too_long" |}]))
    by (vm_compute; reflexivity).
  rewrite H1, H2, H3.
  repeat split; apply raised_is_not_well_formed.
Qed.

(** [except Exception] does not catch what is not an [Exception]: a
    [KeyboardInterrupt] leaves the route function of either router,
    although the classifier itself would answer it with the fallback. *)
Remark base_exceptions_escape_the_route :
  let interrupt := Exn KeyboardInterrupt "" in
  real_router Ingest sample_ingest sample_chat [] interrupt = Raise interrupt
  /\ simulation_router Ingest sample_ingest sample_chat [] interrupt
     = Raise interrupt
  /\ handle_ingestion_error interrupt = Return (fallback Ingest).
Proof. repeat split. Qed.

End Recovery.

(** ** The real router and the simulation router *)

Section TwoRouters.

Import Contract error_handlers models_repository models_chat.

Lemma simulation_test (e : exn) (c c' : pyclass) :
  counterpart c = c' ->
  isinstance (counterpart_exn e) c' = isinstance e c.
Proof. intros <-. apply isinstance_counterpart. Qed.





(** Where the branch that only the real handlers have is reached, the
    real router answers 501 / NOT_IMPLEMENTED and the simulation answers
    with its catch-all, 500 / AGENT_ERROR. *)
Lemma not_implemented_divergence (ep : endpoint)
    (ingest : IngestRequest.t) (chat : ChatRequest.t)
    (printed : list string) (e : exn) :
  reaches_not_implemented ep e = true ->
  wire_pair (real_router ep ingest chat printed e)
  = Some (501%Z, Some (JStr "NOT_IMPLEMENTED"))
  /\ simulation_router ep ingest chat printed (counterpart_exn e)
     = Return (fallback ep).
Proof.
  intros Hreach. unfold reaches_not_implemented in Hreach.
  apply andb_true_iff in Hreach. destruct Hreach as [Hreach Hearlier].
  apply andb_true_iff in Hreach. destruct Hreach as [HE HN].
  apply negb_true_iff in Hearlier.
  destruct ep; cbn [text_branch] in Hearlier;
    repeat (apply orb_false_iff in Hearlier;
            destruct Hearlier as [Hearlier ?]);
    unfold real_router, simulation_router, raising,
      routes.ingest_repository, simulation_main.ingest_repository,
      routes.chat_with_repository, simulation_main.chat_with_repository,
      handle_ingestion_error, handle_chat_error;
    cbn [fastapi.outcome].
  - rewrite (@simulation_test e exceptions.InvalidURLError
               simulation_main.InvalidURLError eq_refl),
            (@simulation_test e exceptions.InvalidTokenError
               simulation_main.InvalidTokenError eq_refl),
            (@simulation_test e exceptions.InsufficientPermissionsError
               simulation_main.InsufficientPermissionsError eq_refl),
            (@simulation_test e exceptions.RepoTooLargeError
               simulation_main.RepoTooLargeError eq_refl),
            (@simulation_test e exceptions.ProcessingFailedError
               simulation_main.ProcessingFailedError eq_refl),
            (@simulation_test e exceptions.StorageError
               simulation_main.StorageError eq_refl),
            (@simulation_test e FileNotFoundError FileNotFoundError eq_refl),
            (@simulation_test e PermissionError PermissionError eq_refl),
            (@simulation_test e Exception Exception eq_refl).
    repeat match goal with
           | H : isinstance e _ = _ |- _ => rewrite H; clear H
           end.
    split; reflexivity.
  - rewrite (@simulation_test e FileNotFoundError FileNotFoundError eq_refl),
            (@simulation_test e ValueError ValueError eq_refl),
            (@simulation_test e ConnectionError ConnectionError eq_refl),
            (@simulation_test e Exception Exception eq_refl).
    repeat match goal with
           | H : isinstance e _ = _ |- _ => rewrite H; clear H
           end.
    split; reflexivity.
Qed.





(** The copies are different classes: an [InvalidURLError] of
    [apps/api/exceptions] raised inside the simulation is not the
    simulation's [InvalidURLError] and falls to its catch-all. *)
Remark foreign_copy_is_not_recognised :
  simulation_router Ingest sample_ingest sample_chat []
    (Exn exceptions.InvalidURLError "Repository URL format is invalid")
  = Return (fallback Ingest)
  /\ real_router Ingest sample_ingest sample_chat []
       (Exn exceptions.InvalidURLError "Repository URL format is invalid")
     = Return (error_response 400 "Repository URL format is invalid"
                 "INVALID_URL").
Proof. split; reflexivity. Qed.

(** ** The chat classifier and the class hierarchy *)

(** C10 as stated fails: an exception can be an instance of [ValueError]
    and of [FileNotFoundError]; the chat classifier tests
    [FileNotFoundError] first and answers 404 / REPO_NOT_INDEXED. *)
Lemma C10_value_error_taken_by_an_earlier_branch :
  let e := Exn MissingValue "no such value" in
  isinstance e ValueError = true
  /\ handle_chat_error e
     = Return (error_response 404 "no such value" "REPO_NOT_INDEXED")
  /\ handle_chat_error e
     <> Return (error_response 422 "no such value" "QUERY_PROCESSING_FAILED").
Proof. cbv zeta. repeat split. discriminate. Qed.

(** C10, as the code has it: every exception that is an instance of
    [ValueError] and not of [FileNotFoundError] is sent to the
    QUERY_PROCESSING_FAILED branch of the chat classifier and never to
    the catch-all: with a text of 1 to 1000 characters the answer is
    (422, QUERY_PROCESSING_FAILED) with that text.  The ingestion classes
    [InvalidURLError], [InvalidTokenError] and [RepoTooLargeError] are
    such exceptions: the dispatch follows the class hierarchy. *)
Theorem C10_value_errors_are_query_processing_failed (e : exn) :
  isinstance e ValueError = true ->
  isinstance e FileNotFoundError = false ->
  handle_chat_error e
  = (body <- ChatErrorResponse.new (str e) "QUERY_PROCESSING_FAILED" ;;
     Return {| status_code := status.HTTP_422_UNPROCESSABLE_ENTITY;
               content := ChatErrorResponse.dict body |})
  /\ handle_chat_error e <> Return (fallback Converse)
  /\ (Str.length_between 1 1000 (str e) = true ->
      handle_chat_error e
      = Return (error_response 422 (str e) "QUERY_PROCESSING_FAILED"))
  /\ Forall (fun c => issubclass c ValueError = true
                      /\ issubclass c FileNotFoundError = false)
            [exceptions.InvalidURLError; exceptions.InvalidTokenError;
             exceptions.RepoTooLargeError].
Proof.
  intros HV HF.
  assert (Hbranch :
    handle_chat_error e
    = (body <- ChatErrorResponse.new (str e) "QUERY_PROCESSING_FAILED" ;;
       Return {| status_code := status.HTTP_422_UNPROCESSABLE_ENTITY;
                 content := ChatErrorResponse.dict body |})).
  { unfold handle_chat_error. rewrite HF, HV. reflexivity. }
  split; [exact Hbranch|]. split; [|split].
  - rewrite Hbranch.
    destruct (ChatErrorResponse.new (str e) "QUERY_PROCESSING_FAILED");
      discriminate.
  - intros Hm. rewrite Hbranch.
    rewrite ChatErrorResponse_fits by first [exact Hm | reflexivity].
    reflexivity.
  - repeat constructor.
Qed.

Lemma C10_value_errors_are_query_processing_failed_witness :
  let e := Exn exceptions.InvalidURLError "Repository URL format is invalid" in
  isinstance e ValueError = true
  /\ isinstance e FileNotFoundError = false
  /\ handle_chat_error e
     = Return (error_response 422 "Repository URL format is invalid"
                 "QUERY_PROCESSING_FAILED").
Proof.
  cbv zeta. split; [reflexivity|]. split; [reflexivity|].
  exact (proj1 (proj2 (proj2
           (C10_value_errors_are_query_processing_failed
              (Exn exceptions.InvalidURLError "Repository URL format is invalid")
              eq_refl eq_refl)))
         eq_refl).
Defined.

End TwoRouters.

(** ** Validation before the collaborator *)

Section ValidationFirst.

Import Regex pydantic Contract models_repository models_chat.

Lemma plus_iter_ext (step step' : pos -> list pos) :
  (forall p, step p = step' p) ->
  forall fuel p, plus_iter step fuel p = plus_iter step' fuel p.
Proof.
  intros Hstep. induction fuel as [|fuel IH]; intros p; simpl.
  - reflexivity.
  - rewrite Hstep. apply flat_map_ext. intros q. rewrite IH. reflexivity.
Qed.

Lemma rep_iter_ext (step step' : pos -> list pos) :
  (forall p, step p = step' p) ->
  forall n ps, rep_iter step n ps = rep_iter step' n ps.
Proof.
  intros Hstep. induction n as [|n IH]; intros ps; simpl.
  - reflexivity.
  - rewrite IH. f_equal. apply flat_map_ext. exact Hstep.
Qed.

(** Patterns of the same shape end their matches at the same positions. *)
Lemma ends_same_shape (fl : flavour) (r r' : regex) :
  same_shape r r' -> forall p, ends fl r p = ends fl r' p.
Proof.
  induction 1 as [ | c | rs rs' Hcls | r1 r1' r2 r2' _ IH1 _ IH2
                 | r1 r1' r2 r2' _ IH1 _ IH2 | r r' _ IH | r r' _ IH
                 | n r r' _ IH | | ]; intros p; cbn [ends];
    try reflexivity.
  - destruct (snd p); [reflexivity|]. rewrite Hcls. reflexivity.
  - rewrite IH1. apply flat_map_ext. exact IH2.
  - rewrite IH1, IH2. reflexivity.
  - apply plus_iter_ext. exact IH.
  - rewrite IH. reflexivity.
  - apply rep_iter_ext. exact IH.
Qed.

Lemma spec_name_class_same (c : ascii) :
  in_class spec_name_class c = in_class github_name_class c.
Proof.
  unfold in_class, spec_name_class, github_name_class. cbn [existsb].
  destruct (in_range c ("A", "Z")%char), (in_range c ("a", "z")%char);
    reflexivity.
Qed.

(** The pattern of the specification and the pattern of
    [validate_github_url] accept the same URLs. *)
Lemma spec_github_pattern_same (url : string) :
  re_match spec_github_pattern url = re_match github_pattern url.
Proof.
  unfold re_match, matches_at. f_equal. f_equal. f_equal.
  apply ends_same_shape.
  unfold spec_github_pattern, github_pattern.
  repeat first [ apply shape_cat | apply shape_plus | apply shape_opt
               | apply shape_chr | apply shape_bol | apply shape_eol
               | apply shape_cls; exact spec_name_class_same ].
Qed.

(** A URL that the pattern or the length bounds refuse leaves a
    validation error. *)
Lemma bad_url_is_an_error (url : string) (token : option string) :
  re_match github_pattern url = false
  \/ Str.length_between 19 200 url = false ->
  IngestRequest.errors url token <> [].
Proof.
  intros Hbad. unfold IngestRequest.errors, after_validator.
  destruct (check_length "repository_url" 19 200 url) eqn:Hlen.
  - apply check_length_nil in Hlen.
    destruct Hbad as [Hre | Hbound]; [|congruence].
    unfold IngestRequest.validate_github_url. rewrite Hre. discriminate.
  - discriminate.
Qed.

(** A body that passes validation is handed to the collaborator, once,
    by either application. *)
Lemma valid_body_reaches_both
    (collab : fastapi.collaborator IngestRequest.t IngestSuccessResponse.t)
    (url : string) (token : option string) :
  IngestRequest.errors url token = [] ->
  fastapi.calls (main.post_api_ingest collab url token)
  = [{| IngestRequest.repository_url := url;
        IngestRequest.github_token := token |}]
  /\ fastapi.calls (simulation_main.post_api_ingest collab url token)
     = [{| IngestRequest.repository_url := url;
           IngestRequest.github_token := token |}].
Proof.
  intros Hvalid.
  unfold main.post_api_ingest, routes.ingest_repository,
    simulation_main.post_api_ingest, simulation_main.ingest_repository.
  rewrite Hvalid. destruct (collab _). split; reflexivity.
Qed.

(** A URL that [re.match] or the length bounds refuse is answered 422 by
    the validation of the body, in the real application and in the
    simulation, and the collaborator is not called. *)
Lemma refused_url_never_reaches_the_collaborator
    (collab : fastapi.collaborator IngestRequest.t IngestSuccessResponse.t)
    (url : string) (token : option string) :
  re_match spec_github_pattern url = false
  \/ Str.length_between 19 200 url = false ->
  let real := main.post_api_ingest collab url token in
  let simulated := simulation_main.post_api_ingest collab url token in
  fastapi.calls real = [] /\ fastapi.stdout real = []
  /\ fastapi.calls simulated = [] /\ fastapi.stdout simulated = []
  /\ exists errs,
       errs <> []
       /\ fastapi.outcome real = Return (fastapi.request_validation_error errs)
       /\ fastapi.outcome simulated
          = Return (fastapi.request_validation_error errs)
       /\ status_code (fastapi.request_validation_error errs) = 422%Z.
Proof.
  intros Hbad. rewrite spec_github_pattern_same in Hbad.
  pose proof (bad_url_is_an_error url token Hbad) as Herrs.
  cbv zeta. unfold main.post_api_ingest, simulation_main.post_api_ingest.
  destruct (IngestRequest.errors url token) as [|err errs] eqn:E.
  - contradiction Herrs. reflexivity.
  - repeat split. exists (err :: errs). repeat split. discriminate.
Qed.

(** The pattern of the specification, read over the whole text, and the
    pattern of [validate_github_url] read the same way accept the same
    URLs. *)
Lemma matches_github_pattern_same (url : string) :
  matches_github_pattern url = matches_at RustRegex github_pattern (0%nat, url).
Proof.
  unfold matches_github_pattern, matches_at. f_equal. f_equal. f_equal.
  apply ends_same_shape.
  unfold spec_github_pattern, github_pattern.
  repeat first [ apply shape_cat | apply shape_plus | apply shape_opt
               | apply shape_chr | apply shape_bol | apply shape_eol
               | apply shape_cls; exact spec_name_class_same ].
Qed.

(** What [re.match] accepts beyond the pattern: a matching URL followed
    by one newline, and nothing else. *)
Lemma re_match_accepts_a_final_newline (url : string) :
  re_match spec_github_pattern url = true
  <-> matches_github_pattern url = true
      \/ exists u,
           url = u ++ String newline "" /\ matches_github_pattern u = true.
Proof.
  rewrite spec_github_pattern_same, github_url_language,
    matches_github_pattern_same, github_url_strict_language.
  split.
  - intros [owner [name [slash [tail [Hurl [H1 [H2 [H3 [H4 [H5 Htail]]]]]]]]]].
    destruct Htail as [-> | ->].
    + left. exists owner, name, slash. rewrite append_empty_r in Hurl.
      repeat split; assumption.
    + right. exists ("https://github.com/" ++ owner ++ "/" ++ name ++ slash).
      split.
      * rewrite Hurl, !append_assoc. reflexivity.
      * rewrite matches_github_pattern_same, github_url_strict_language.
        exists owner, name, slash. repeat split; assumption.
  - intros [[owner [name [slash [Hurl H]]]] | [u [Hurl Hu]]].
    + exists owner, name, slash, "". rewrite append_empty_r.
      split; [exact Hurl|]. intuition.
    + rewrite matches_github_pattern_same, github_url_strict_language in Hu.
      destruct Hu as [owner [name [slash [Hu H]]]].
      exists owner, name, slash, (String newline "").
      split; [rewrite Hurl, Hu, !append_assoc; reflexivity|]. intuition.
Qed.

(** C5: a request whose [repository_url] does not match the GitHub
    pattern, or has fewer than 19 or more than 200 characters, is answered
    422 before the collaborator is called.  The code does not do so for
    "https://github.com/facebook/react" followed by a newline.  The
    pattern ends with [$] and the URL does not match it to its end, yet
    [validate_github_url] tests it with [re.match], whose [$] also holds
    before a final newline: the body is accepted with no validation
    error, the route function calls the collaborator with it, the real
    application answers 501 and the simulation 200, not 422.  This is the
    whole of the divergence: [re.match] accepts a matching URL, a matching
    URL followed by one newline, and nothing else, and every URL that it
    or the length bounds refuse is answered 422 with no call. *)
Theorem C5_url_with_final_newline_reaches_the_collaborator
    (collab : fastapi.collaborator IngestRequest.t IngestSuccessResponse.t) :
  let url := "https://github.com/facebook/react" ++ String newline "" in
  let request := {| IngestRequest.repository_url := url;
                    IngestRequest.github_token := None |} in
  matches_github_pattern url = false
  /\ Str.length_between 19 200 url = true
  /\ IngestRequest.validate_github_url url = Return url
  /\ IngestRequest.errors url None = []
  /\ fastapi.calls (main.post_api_ingest collab url None) = [request]
  /\ fastapi.calls (simulation_main.post_api_ingest collab url None)
     = [request]
  /\ fastapi.outcome (main.app_post_api_ingest url None)
     = Return (error_response 501 "Ingestion agent not yet implemented"
                 "NOT_IMPLEMENTED")
  /\ (exists body,
        fastapi.outcome (simulation_main.app_post_api_ingest url None)
        = Return {| status_code := 200; content := body |})
  /\ (forall url',
        re_match spec_github_pattern url' = true
        <-> matches_github_pattern url' = true
            \/ exists u,
                 url' = u ++ String newline ""
                 /\ matches_github_pattern u = true)
  /\ (forall url' token,
        re_match spec_github_pattern url' = false
        \/ Str.length_between 19 200 url' = false ->
        fastapi.calls (main.post_api_ingest collab url' token) = []
        /\ fastapi.calls (simulation_main.post_api_ingest collab url' token)
           = []
        /\ exists errs,
             fastapi.outcome (main.post_api_ingest collab url' token)
             = Return (fastapi.request_validation_error errs)
             /\ fastapi.outcome
                  (simulation_main.post_api_ingest collab url' token)
                = Return (fastapi.request_validation_error errs)
             /\ status_code (fastapi.request_validation_error errs)
                = 422%Z).
Proof.
  cbv zeta.
  split; [reflexivity|]. split; [reflexivity|]. split; [reflexivity|].
  split; [reflexivity|].
  split; [apply valid_body_reaches_both; reflexivity|].
  split; [apply valid_body_reaches_both; reflexivity|].
  split; [reflexivity|].
  split; [eexists; reflexivity|].
  split; [exact re_match_accepts_a_final_newline|].
  intros url' token Hbad.
  destruct (refused_url_never_reaches_the_collaborator collab url' token Hbad)
    as [Hreal [_ [Hsim [_ [errs [_ [Hout [Hout' Hstatus]]]]]]]].
  split; [exact Hreal|]. split; [exact Hsim|].
  exists errs. repeat split; assumption.
Qed.

End ValidationFirst.

(** ** The conversation history *)

Section History.

Import pydantic models_chat.

(** C6: the declarative bound ([max_items=10]) and the explicit check
    ([len(v) > 10] raises) accept the same histories: those that are
    absent or have at most 10 entries.  A history of 11 entries is
    refused by either. *)
Theorem C6_history_checks_agree (A : Type) (v : option (list A)) :
  max_items_ok 10 v = returned (ChatRequest.validate_conversation_history v)
  /\ (max_items_ok 10 v = true
      <-> match v with
          | None => True
          | Some items => (List.length items <= 10)%nat
          end)
  /\ match v with
     | None => True
     | Some items =>
         List.length items = 11%nat ->
         max_items_ok 10 v = false
         /\ returned (ChatRequest.validate_conversation_history v) = false
     end.
Proof.
  destruct v as [items|]; cbn [max_items_ok].
  - unfold ChatRequest.validate_conversation_history.
    destruct (Nat.ltb_spec 10 (List.length items)) as [Hlong | Hshort].
    + assert (Hleb : (List.length items <=? 10)%nat = false)
        by (apply Nat.leb_gt; exact Hlong).
      rewrite Hleb. repeat split; try discriminate; lia.
    + assert (Hleb : (List.length items <=? 10)%nat = true)
        by (apply Nat.leb_le; exact Hshort).
      rewrite Hleb. repeat split; try assumption; lia.
  - repeat split.
Qed.

(** A history of more than 10 entries makes the request invalid,
    whatever its entries; the declarative bound reports it and the
    explicit check is not run. *)
Lemma long_history_is_rejected (message repository_id : string)
    (items : list ConversationEntry.t) :
  (10 < List.length items)%nat ->
  In {| loc := ["conversation_history"]; type_ := "too_long" |}
     (ChatRequest.errors message repository_id (Some items)).
Proof.
  intros Hlong. unfold ChatRequest.errors.
  apply in_or_app. right. apply in_or_app. right.
  unfold ChatRequest.history_declared_errors. cbn [max_items_ok].
  assert (Hleb : (List.length items <=? 10)%nat = false)
    by (apply Nat.leb_gt; exact Hlong).
  rewrite Hleb. left. reflexivity.
Qed.

End History.

(** ** The repository identifier *)

Section RepositoryId.

Import Regex pydantic Contract models_repository models_chat.

Lemma check_pattern_nil (field : string) (pattern : regex) (v : string) :
  check_pattern field pattern v = [] <-> is_match pattern v = true.
Proof.
  unfold check_pattern. destruct (is_match pattern v); split;
    intros H; try reflexivity; discriminate H.
Qed.

Lemma construct_returns {A : Type} (title : string)
    (errs : list ErrorDetail) (instance value : A) :
  construct title errs instance = Return value ->
  errs = [] /\ value = instance.
Proof.
  unfold construct. destruct errs; intros H.
  - injection H as <-. split; reflexivity.
  - discriminate H.
Qed.

(** C7: the [repository_id] of every well-formed [IngestSuccessResponse]
    passes the [repository_id] check of [ChatRequest]; with a message of
    1 to 5000 characters and no history, the chat request is valid. *)
Theorem C7_ingested_id_is_a_valid_chat_id
    (success : bool) (repository_id message : string)
    (files_processed : Z) (processing_time_seconds : float)
    (response : IngestSuccessResponse.t) :
  IngestSuccessResponse.new success repository_id message
    files_processed processing_time_seconds = Return response ->
  check_pattern "repository_id" models_chat.repository_id_pattern
    (IngestSuccessResponse.repository_id response) = []
  /\ forall question,
       Str.length_between 1 5000 question = true ->
       ChatRequest.errors question
         (IngestSuccessResponse.repository_id response) None = [].
Proof.
  intros Hnew. unfold IngestSuccessResponse.new in Hnew.
  apply construct_returns in Hnew. destruct Hnew as [Herrs ->].
  cbn [IngestSuccessResponse.repository_id].
  unfold IngestSuccessResponse.errors in Herrs.
  apply app_eq_nil in Herrs. destruct Herrs as [Hid _].
  change models_repository.repository_id_pattern
    with models_chat.repository_id_pattern in Hid.
  split; [exact Hid|].
  intros question Hq. unfold ChatRequest.errors.
  rewrite (proj2 (check_length_nil "message" _ _ _) Hq), Hid.
  reflexivity.
Qed.

Lemma C7_ingested_id_is_a_valid_chat_id_witness :
  returned
    (IngestSuccessResponse.new true "repo-a1b2c3d4"
       "Repository successfully processed and indexed" 247 (Finite (452 # 10)))
  = true
  /\ check_pattern "repository_id" models_chat.repository_id_pattern
       "repo-a1b2c3d4" = [].
Proof.
  split; [reflexivity|].
  exact (proj1 (C7_ingested_id_is_a_valid_chat_id
                  true "repo-a1b2c3d4"
                  "Repository successfully processed and indexed"
                  247 (Finite (452 # 10)) eq_refl)).
Defined.

(** The identifier that the simulated ingestion returns is such an id. *)
Lemma simulated_ingestion_id (request : IngestRequest.t)
    (response : IngestSuccessResponse.t) :
  snd (simulation_main.process_ingestion_request request) = Return response ->
  IngestSuccessResponse.repository_id response = "repo-a1b2c3d4".
Proof.
  unfold simulation_main.process_ingestion_request. cbn [snd].
  repeat match goal with
         | |- context [if ?b then Raise _ else _] => destruct b
         end; try discriminate.
  intros H. injection H as <-. reflexivity.
Qed.

(** Such an identifier is "repo-" followed by eight characters among
    [a-f] and [0-9]. *)
Lemma ingested_id_shape
    (success : bool) (repository_id message : string)
    (files_processed : Z) (processing_time_seconds : float)
    (response : IngestSuccessResponse.t) :
  IngestSuccessResponse.new success repository_id message
    files_processed processing_time_seconds = Return response ->
  exists h,
    IngestSuccessResponse.repository_id response = "repo-" ++ h
    /\ String.length h = 8%nat
    /\ all_in_class [("a", "f"); ("0", "9")]%char h = true.
Proof.
  intros Hnew. unfold IngestSuccessResponse.new in Hnew.
  apply construct_returns in Hnew. destruct Hnew as [Herrs ->].
  cbn [IngestSuccessResponse.repository_id].
  unfold IngestSuccessResponse.errors in Herrs.
  apply app_eq_nil in Herrs. destruct Herrs as [Hid _].
  apply check_pattern_nil in Hid. apply repository_id_language. exact Hid.
Qed.

End RepositoryId.

(** ** The simulation's "not indexed" trigger *)

Section NotIndexed.

Import Regex pydantic Contract models_repository models_chat.

Lemma valid_chat_id (message repository_id : string)
    (history : option (list ConversationEntry.t)) :
  ChatRequest.errors message repository_id history = [] ->
  is_match models_chat.repository_id_pattern repository_id = true.
Proof.
  unfold ChatRequest.errors. intros Herrs.
  apply app_eq_nil in Herrs. destruct Herrs as [_ Herrs].
  apply app_eq_nil in Herrs. destruct Herrs as [Hid _].
  apply check_pattern_nil in Hid. exact Hid.
Qed.

Lemma trigger_is_not_a_valid_id (message : string)
    (history : option (list ConversationEntry.t)) :
  ChatRequest.errors message "repo-not-indexed" history <> [].
Proof.
  intros Herrs. apply valid_chat_id in Herrs. discriminate Herrs.
Qed.

Lemma valid_id_is_not_the_trigger (message repository_id : string)
    (history : option (list ConversationEntry.t)) :
  ChatRequest.errors message repository_id history = [] ->
  String.eqb repository_id "repo-not-indexed" = false.
Proof.
  intros Herrs. apply String.eqb_neq. intros ->.
  exact (@trigger_is_not_a_valid_id message history Herrs).
Qed.

(** The payload of the simulated chat passes its own model. *)
Lemma simulated_chat_payload :
  exists payload,
    ChatSuccessResponse.new
      "User authentication is handled primarily in the authentication module. I found several relevant files that implement different aspects of the authentication system."
      simulation_main.simulated_suggestions
      {| ChatMetadata.processing_time_ms := 1247;
         ChatMetadata.search_strategy := "semantic_search" |}
    = Return payload.
Proof. eexists. vm_compute. reflexivity. Qed.

(** C8: "repo-not-indexed" does not match [^repo-[a-f0-9]{8}$]; a chat
    request that carries it is answered 422 by the validation of the
    body, before any collaborator.  So for every chat request that
    passes validation the simulation's trigger
    ([repository_id == "repo-not-indexed"]) is false, the simulated
    collaborator does not raise its [FileNotFoundError], and the
    simulation's chat endpoint never answers 404. *)
Theorem C8_not_indexed_trigger_is_unreachable
    (message repository_id : string)
    (history : option (list ConversationEntry.t)) :
  ChatRequest.errors message repository_id history = [] ->
  is_match models_chat.repository_id_pattern "repo-not-indexed" = false
  /\ (forall collab question past,
        let real := main.post_api_chat collab question "repo-not-indexed" past in
        let simulated :=
          simulation_main.post_api_chat collab question
            "repo-not-indexed" past in
        fastapi.calls real = [] /\ fastapi.calls simulated = []
        /\ exists errs,
             fastapi.outcome real
             = Return (fastapi.request_validation_error errs)
             /\ fastapi.outcome simulated
                = Return (fastapi.request_validation_error errs)
             /\ status_code (fastapi.request_validation_error errs) = 422%Z)
  /\ String.eqb repository_id "repo-not-indexed" = false
  /\ (forall text,
        snd (simulation_main.process_chat_request
               {| ChatRequest.message := message;
                  ChatRequest.repository_id := repository_id;
                  ChatRequest.conversation_history := history |})
        <> Raise (Exn FileNotFoundError text))
  /\ (forall response,
        fastapi.outcome
          (simulation_main.app_post_api_chat message repository_id history)
        = Return response ->
        status_code response <> 404%Z).
Proof.
  intros Hvalid.
  pose proof (@valid_id_is_not_the_trigger _ _ _ Hvalid) as Hid.
  destruct simulated_chat_payload as [payload Hpayload].
  split; [reflexivity|]. split; [|split; [exact Hid|split]].
  - intros collab question past. cbv zeta.
    unfold main.post_api_chat, simulation_main.post_api_chat.
    pose proof (@trigger_is_not_a_valid_id question past) as Hbad.
    destruct (ChatRequest.errors question "repo-not-indexed" past)
      as [|err errs].
    + contradiction Hbad. reflexivity.
    + repeat split. exists (err :: errs). repeat split.
  - intros text. unfold simulation_main.process_chat_request.
    cbn [snd ChatRequest.repository_id ChatRequest.message].
    rewrite Hid, Hpayload.
    destruct (Str.contains "unprocessable" message);
      [discriminate|].
    destruct (Str.contains "unavailable" message); discriminate.
  - intros response.
    unfold simulation_main.app_post_api_chat, simulation_main.post_api_chat.
    rewrite Hvalid.
    unfold simulation_main.chat_with_repository,
      simulation_main.process_chat_request.
    cbn [ChatRequest.repository_id ChatRequest.message].
    rewrite Hid, Hpayload.
    destruct (Str.contains "unprocessable" message).
    + cbn. intros H. injection H as <-. discriminate.
    + destruct (Str.contains "unavailable" message).
      * cbn. intros H. injection H as <-. discriminate.
      * cbn [fastapi.outcome]. intros H. injection H as <-. discriminate.
Qed.

Lemma C8_not_indexed_trigger_is_unreachable_witness :
  ChatRequest.errors "Where is authentication handled?" "repo-a1b2c3d4" None
  = []
  /\ forall text,
       snd (simulation_main.process_chat_request sample_chat)
       <> Raise (Exn FileNotFoundError text).
Proof.
  split; [reflexivity|].
  exact (proj1 (proj2 (proj2 (proj2
           (C8_not_indexed_trigger_is_unreachable
              "Where is authentication handled?" "repo-a1b2c3d4" None
              eq_refl))))).
Defined.

End NotIndexed.

(** ** GET / *)

Section Health.

Import Contract.

(** C9 as stated fails: the simulation application answers [GET /] with
    [{"Hello": "World"}], which is not the health body. *)
Lemma C9_simulation_root_is_not_the_health_body :
  content simulation_main.get_root = JDict [("Hello", JStr "World")]
  /\ content simulation_main.get_root <> health_body.
Proof. split; [reflexivity | discriminate]. Qed.

(** C9, as the code has it: [GET /] always answers 200; in the real
    application with [{"status": "healthy", "service":
    "agents-locate-api"}], in the simulation application with
    [{"Hello": "World"}]. *)
Theorem C9_root_answers_200 :
  main.get_root
  = {| status_code := 200; content := health_body |}
  /\ simulation_main.get_root
     = {| status_code := 200; content := JDict [("Hello", JStr "World")] |}.
Proof. split; reflexivity. Qed.

End Health.

(** ** The scenarios of the specification, run on the two applications *)

Section Scenarios.

Import Contract models_repository models_chat.

(** A URL outside the language of the pattern is answered 422 without a
    call of the collaborator; a valid body reaches the collaborator
    exactly once. *)
Lemma url_outside_the_language_is_rejected
    (collab : fastapi.collaborator IngestRequest.t IngestSuccessResponse.t)
    (url : string) (token : option string) :
  ~ (exists owner name slash tail,
       url = "https://github.com/" ++ owner ++ "/" ++ name ++ slash ++ tail
       /\ owner <> "" /\ Regex.all_in_class github_name_class owner = true
       /\ name <> "" /\ Regex.all_in_class github_name_class name = true
       /\ (slash = "" \/ slash = "/")
       /\ (tail = "" \/ tail = String Regex.newline "")) ->
  fastapi.calls (main.post_api_ingest collab url token) = []
  /\ exists errs,
       fastapi.outcome (main.post_api_ingest collab url token)
       = Return (fastapi.request_validation_error errs).
Proof.
  intros Hshape.
  assert (Hre : Regex.re_match github_pattern url = false).
  { destruct (Regex.re_match github_pattern url) eqn:E; [|reflexivity].
    apply github_url_language in E. contradiction. }
  pose proof (@bad_url_is_an_error url token (or_introl Hre)) as Herrs.
  unfold main.post_api_ingest.
  destruct (IngestRequest.errors url token) as [|err errs].
  - contradiction Herrs. reflexivity.
  - split; [reflexivity|]. exists (err :: errs). reflexivity.
Qed.

Lemma valid_body_reaches_the_collaborator
    (collab : fastapi.collaborator IngestRequest.t IngestSuccessResponse.t)
    (url : string) (token : option string) :
  IngestRequest.errors url token = [] ->
  fastapi.calls (main.post_api_ingest collab url token)
  = [{| IngestRequest.repository_url := url;
        IngestRequest.github_token := token |}].
Proof.
  intros Hvalid. unfold main.post_api_ingest, routes.ingest_repository.
  rewrite Hvalid. destruct (collab _). reflexivity.
Qed.

(** The real application: the services are not implemented yet. *)
Example real_ingest_is_not_implemented :
  fastapi.outcome
    (main.app_post_api_ingest "https://github.com/facebook/react" None)
  = Return (error_response 501 "Ingestion agent not yet implemented"
              "NOT_IMPLEMENTED").
Proof. reflexivity. Qed.

Example real_chat_is_not_implemented :
  fastapi.outcome
    (main.app_post_api_chat "Where is authentication handled?"
       "repo-a1b2c3d4" None)
  = Return (error_response 501 "Chat agent not yet implemented"
              "NOT_IMPLEMENTED").
Proof. reflexivity. Qed.

(** Scenario A *)
Example scenario_invalid_url :
  fastapi.outcome
    (simulation_main.app_post_api_ingest
       "https://github.com/foo/invalid-url" None)
  = Return (error_response 400 "Repository URL format is invalid"
              "INVALID_URL").
Proof. reflexivity. Qed.

(** Scenario B *)
Example scenario_private_repo_without_token :
  fastapi.outcome
    (simulation_main.app_post_api_ingest
       "https://github.com/foo/private-repo" None)
  = Return (error_response 401 "Private repository requires GitHub token"
              "PRIVATE_REPO_NO_TOKEN").
Proof. reflexivity. Qed.

(** Scenario C *)
Example scenario_successful_ingestion :
  let exchange :=
    simulation_main.app_post_api_ingest
      "https://github.com/facebook/react" None in
  fastapi.stdout exchange
  = ["Simulating ingestion for: https://github.com/facebook/react"]
  /\ fastapi.outcome exchange
     = Return
         {| status_code := 200;
            content :=
              JDict [("success", JBool true);
                     ("repository_id", JStr "repo-a1b2c3d4");
                     ("message",
                      JStr "Repository successfully processed and indexed");
                     ("processing_summary",
                      JDict [("files_processed", JInt 247);
                             ("processing_time_seconds",
                              JFloat (Finite (452 # 10)))])] |}.
Proof. split; reflexivity. Qed.

(** Scenario D *)
Example scenario_agent_unavailable :
  fastapi.outcome
    (simulation_main.app_post_api_chat "the agent is unavailable"
       "repo-a1b2c3d4" None)
  = Return (error_response 500 "Chat agent system is unavailable"
              "AGENT_UNAVAILABLE").
Proof. reflexivity. Qed.

(** Scenario E *)
Example scenario_not_indexed :
  let exchange :=
    simulation_main.app_post_api_chat "Where is authentication handled?"
      "repo-not-indexed" None in
  fastapi.calls exchange = [] /\ fastapi.stdout exchange = []
  /\ fastapi.outcome exchange
     = Return
         (fastapi.request_validation_error
            [{| pydantic.loc := ["repository_id"];
                pydantic.type_ := "string_pattern_mismatch" |}]).
Proof. repeat split. Qed.

End Scenarios.

(** * Further properties of the code *)

(** ** What the request models accept *)

Section AcceptedRequests.

Import Regex pydantic models_repository models_chat.

Lemma length_between_iff (lo hi : nat) (v : string) :
  Str.length_between lo hi v = true
  <-> (lo <= String.length v <= hi)%nat.
Proof.
  unfold Str.length_between. rewrite andb_true_iff, !Nat.leb_le. tauto.
Qed.

Lemma check_length_ok (field : string) (lo hi : nat) (v : string) :
  check_length field lo hi v = [] <-> (lo <= String.length v <= hi)%nat.
Proof. rewrite check_length_nil. apply length_between_iff. Qed.

Lemma github_url_is_long (url : string) :
  Shapes.github_url url -> (22 <= String.length url)%nat.
Proof.
  intros [owner [name [slash [tail [-> [Ho [_ [Hn _]]]]]]]].
  rewrite !append_length.
  destruct owner as [|a owner]; [contradiction Ho; reflexivity|].
  destruct name as [|b name]; [contradiction Hn; reflexivity|].
  cbn [String.length]. lia.
Qed.

(** X1: [validate_github_url] returns its argument, unchanged, exactly
    for the URLs made of the GitHub prefix, an owner and a repository
    name of letters, digits, [.], [_] and [-], an optional final [/] and
    an optional final newline; for every other string it raises a
    [ValueError] with the text "Must be a valid GitHub repository URL". *)
Theorem X1_validate_github_url_accepts (v : string) :
  (IngestRequest.validate_github_url v = Return v <-> Shapes.github_url v)
  /\ (returned (IngestRequest.validate_github_url v) = false
      <-> ~ Shapes.github_url v)
  /\ (IngestRequest.validate_github_url v
      = Raise (Exn ValueError "Must be a valid GitHub repository URL")
      <-> ~ Shapes.github_url v).
Proof.
  unfold IngestRequest.validate_github_url.
  pose proof (github_url_language v) as Hlang.
  fold (Shapes.github_url v) in Hlang.
  destruct (re_match github_pattern v); cbn [negb returned].
  - assert (Hshape : Shapes.github_url v) by (apply Hlang; reflexivity).
    repeat split; try tauto; try discriminate.
  - assert (Hshape : ~ Shapes.github_url v)
      by (intros H; apply Hlang in H; discriminate H).
    repeat split; try tauto; try discriminate.
Qed.

Lemma ingest_body_valid (url : string) (token : option string) :
  IngestRequest.errors url token = []
  <-> Shapes.github_url url /\ (String.length url <= 200)%nat
      /\ Shapes.token token.
Proof.
  unfold IngestRequest.errors, after_validator, Shapes.token.
  pose proof (github_url_language url) as Hlang.
  fold (Shapes.github_url url) in Hlang.
  pose proof (check_length_ok "repository_url" 19 200 url) as Hlen.
  unfold IngestRequest.validate_github_url. split.
  - intros Herrs. apply app_eq_nil in Herrs. destruct Herrs as [Hurl Htok].
    destruct (check_length "repository_url" 19 200 url); [|discriminate Hurl].
    destruct (re_match github_pattern url); [|discriminate Hurl].
    split; [apply Hlang; reflexivity|].
    split; [apply Hlen; reflexivity|].
    destruct token as [t|]; [|exact I].
    apply check_length_ok in Htok. exact Htok.
  - intros [Hshape [Hmax Htok]].
    pose proof (github_url_is_long Hshape) as Hmin.
    rewrite (proj2 Hlen) by lia.
    rewrite (proj2 Hlang Hshape). cbn [negb app].
    destruct token as [t|]; [|reflexivity].
    apply check_length_ok. exact Htok.
Qed.

(** X2: an ingestion body is valid exactly when its URL has the GitHub
    shape and at most 200 characters and its token is absent or has 4 to
    200 characters.  The lower bound of 19 characters never decides: a
    URL of that shape has at least 22. *)
Theorem X2_ingest_request_is_valid (url : string) (token : option string) :
  (IngestRequest.errors url token = []
   <-> Shapes.github_url url /\ (String.length url <= 200)%nat
       /\ Shapes.token token)
  /\ (Shapes.github_url url -> (22 <= String.length url)%nat).
Proof.
  split; [apply ingest_body_valid|].
  intros Hshape. exact (github_url_is_long Hshape).
Qed.

(** X3: the [repository_id] of a chat request, and that of a successful
    ingestion, passes its pattern exactly when it is "repo-" followed by
    eight characters among [a-f] and [0-9]; such a value has 13
    characters. *)
Theorem X3_repository_id_is_accepted (v : string) :
  (check_pattern "repository_id" models_chat.repository_id_pattern v = []
   <-> Shapes.repository_id v)
  /\ (check_pattern "repository_id" models_repository.repository_id_pattern v
      = [] <-> Shapes.repository_id v)
  /\ (Shapes.repository_id v -> String.length v = 13%nat).
Proof.
  split; [|split].
  - rewrite check_pattern_nil. apply repository_id_language.
  - rewrite check_pattern_nil. apply repository_id_language.
  - intros [h [-> [Hlen _]]]. rewrite append_length, Hlen. reflexivity.
Qed.

Lemma matches_alt (fl : flavour) (r1 r2 : regex) (p q : pos) :
  Matches fl (Alt r1 r2) p q <-> Matches fl r1 p q \/ Matches fl r2 p q.
Proof.
  split.
  - intros H. inversion H; subst; [left | right]; assumption.
  - intros [H | H]; [apply M_alt_left | apply M_alt_right]; exact H.
Qed.

(** [^(user|agent)$] accepts "user" and "agent" and nothing else. *)
Lemma role_language (v : string) :
  is_match role_pattern v = true <-> v = "user" \/ v = "agent".
Proof.
  unfold role_pattern. rewrite is_match_anchored, matches_at_correct. split.
  - intros [q Hm].
    apply matches_cat in Hm. destruct Hm as [p1 [Hbol Hm]].
    apply matches_bol in Hbol. destruct Hbol as [-> _].
    apply matches_cat in Hm. destruct Hm as [p2 [Halt Heol]].
    apply matches_eol in Heol. destruct Heol as [-> Hend].
    cbn [at_eol] in Hend. apply String.eqb_eq in Hend.
    apply matches_alt in Halt.
    destruct Halt as [Hw | Hw]; apply matches_lit in Hw;
      destruct Hw as [Hs _]; cbn [snd] in Hs; rewrite Hend in Hs;
      [left | right]; exact Hs.
  - intros [-> | ->].
    + exists (4%nat, ""). apply matches_cat. exists (0%nat, "user").
      split; [apply matches_bol; split; reflexivity|].
      apply matches_cat. exists (4%nat, "").
      split; [|apply matches_eol; split; reflexivity].
      apply matches_alt. left. apply matches_lit. split; reflexivity.
    + exists (5%nat, ""). apply matches_cat. exists (0%nat, "agent").
      split; [apply matches_bol; split; reflexivity|].
      apply matches_cat. exists (5%nat, "").
      split; [|apply matches_eol; split; reflexivity].
      apply matches_alt. right. apply matches_lit. split; reflexivity.
Qed.

Lemma flat_map_nil {A B : Type} (f : A -> list B) (l : list A) :
  flat_map f l = [] <-> Forall (fun x => f x = []) l.
Proof.
  induction l as [|x l IH]; simpl.
  - split; [constructor | reflexivity].
  - split.
    + intros H. apply app_eq_nil in H. destruct H as [Hx Hl].
      constructor; [exact Hx | apply IH; exact Hl].
    + intros H. inversion H; subst.
      match goal with Hx : f x = [] |- _ => rewrite Hx end.
      apply IH. assumption.
Qed.

Lemma map_nil {A B : Type} (f : A -> B) (l : list A) :
  map f l = [] <-> l = [].
Proof. destruct l; simpl; split; intros H; try reflexivity; discriminate H. Qed.

Lemma entry_is_valid (e : ConversationEntry.t) :
  ConversationEntry.errors e = [] <-> Shapes.entry e.
Proof.
  unfold ConversationEntry.errors, Shapes.entry. split.
  - intros H. apply app_eq_nil in H. destruct H as [Hrole Hcontent].
    apply check_pattern_nil, role_language in Hrole.
    apply check_length_ok in Hcontent. split; assumption.
  - intros [Hrole Hcontent].
    rewrite (proj2 (check_pattern_nil "role" _ _)
               (proj2 (role_language _) Hrole)).
    rewrite (proj2 (check_length_ok "content" _ _ _) Hcontent).
    reflexivity.
Qed.

(** X4: an entry of the conversation history is valid exactly when its
    role is "user" or "agent" and its content has 1 to 5000 characters. *)
Theorem X4_conversation_entry_is_valid (e : ConversationEntry.t) :
  ConversationEntry.errors e = []
  <-> (ConversationEntry.role e = "user" \/ ConversationEntry.role e = "agent")
      /\ (1 <= String.length (ConversationEntry.content e) <= 5000)%nat.
Proof. apply entry_is_valid. Qed.

Lemma history_is_valid (v : option (list ConversationEntry.t)) :
  after_validator "conversation_history"
    (ChatRequest.history_declared_errors v)
    (ChatRequest.validate_conversation_history v) = []
  <-> Shapes.history v.
Proof.
  destruct v as [items|]; [|split; [intros _; exact I | reflexivity]].
  unfold ChatRequest.history_declared_errors, Shapes.history,
    ChatRequest.validate_conversation_history, after_validator.
  cbn [max_items_ok].
  destruct (Nat.leb_spec (List.length items) 10) as [Hshort | Hlong].
  - assert (Hltb : (10 <? List.length items)%nat = false)
      by (apply Nat.ltb_ge; exact Hshort).
    rewrite Hltb.
    assert (Hentries :
      map (under "conversation_history")
          (flat_map ConversationEntry.errors items) = []
      <-> Forall Shapes.entry items).
    { rewrite map_nil, flat_map_nil. split; intros H.
      - eapply Forall_impl; [|exact H].
        intros e He. apply entry_is_valid. exact He.
      - eapply Forall_impl; [|exact H].
        intros e He. apply entry_is_valid. exact He. }
    destruct (map (under "conversation_history")
                (flat_map ConversationEntry.errors items)) eqn:E.
    + split; [intros _; split; [exact Hshort | apply Hentries; reflexivity]
             | reflexivity].
    + split; [discriminate|]. intros [_ H]. apply Hentries in H.
      discriminate H.
  - split; [discriminate|]. intros [H _]. lia.
Qed.

Lemma chat_body_valid (message repository_id : string)
    (history : option (list ConversationEntry.t)) :
  ChatRequest.errors message repository_id history = []
  <-> (1 <= String.length message <= 5000)%nat
      /\ Shapes.repository_id repository_id
      /\ Shapes.history history.
Proof.
  unfold ChatRequest.errors. split.
  - intros H. apply app_eq_nil in H. destruct H as [Hm H].
    apply app_eq_nil in H. destruct H as [Hid Hh].
    apply check_length_ok in Hm.
    apply check_pattern_nil, repository_id_language in Hid.
    apply history_is_valid in Hh. repeat split; try assumption; apply Hm.
  - intros [Hm [Hid Hh]].
    rewrite (proj2 (check_length_ok "message" _ _ _) Hm).
    rewrite (proj2 (check_pattern_nil "repository_id" _ _)
               (proj2 (repository_id_language _) Hid)).
    rewrite (proj2 (history_is_valid _) Hh). reflexivity.
Qed.

(** X5: a chat body is valid exactly when its message has 1 to 5000
    characters, its [repository_id] is "repo-" followed by eight
    characters among [a-f] and [0-9], and its history is absent or has at
    most 10 entries, each with a role "user" or "agent" and a content of
    1 to 5000 characters. *)
Theorem X5_chat_request_is_valid (message repository_id : string)
    (conversation_history : option (list ConversationEntry.t)) :
  ChatRequest.errors message repository_id conversation_history = []
  <-> (1 <= String.length message <= 5000)%nat
      /\ Shapes.repository_id repository_id
      /\ Shapes.history conversation_history.
Proof. apply chat_body_valid. Qed.

End AcceptedRequests.

(** ** Validation in front of the route functions *)

Section ValidationGate.

Import Regex pydantic models_repository models_chat.

(** X6: [POST /api/ingest], in the real application and in the
    simulation: a body of the accepted shape reaches the collaborator
    exactly once, as a request with exactly the body's URL and token;
    any other body is answered 422 and the collaborator is not called. *)
Theorem X6_ingest_collaborator_called_iff_valid
    (collab : fastapi.collaborator IngestRequest.t IngestSuccessResponse.t)
    (url : string) (token : option string) :
  let valid :=
    Shapes.github_url url /\ (String.length url <= 200)%nat
    /\ Shapes.token token in
  let request :=
    {| IngestRequest.repository_url := url;
       IngestRequest.github_token := token |} in
  let real := main.post_api_ingest collab url token in
  let simulated := simulation_main.post_api_ingest collab url token in
  (valid ->
   fastapi.calls real = [request] /\ fastapi.calls simulated = [request]
   /\ fastapi.stdout real = fst (collab request)
   /\ fastapi.stdout simulated = fst (collab request))
  /\ (~ valid ->
      fastapi.calls real = [] /\ fastapi.calls simulated = []
      /\ exists errs,
           fastapi.outcome real
           = Return (fastapi.request_validation_error errs)
           /\ fastapi.outcome simulated
              = Return (fastapi.request_validation_error errs)
           /\ status_code (fastapi.request_validation_error errs) = 422%Z).
Proof.
  cbv zeta. pose proof (ingest_body_valid url token) as Hvalid.
  unfold main.post_api_ingest, simulation_main.post_api_ingest,
    routes.ingest_repository, simulation_main.ingest_repository.
  destruct (IngestRequest.errors url token) as [|err errs]; split.
  - intros _. destruct (collab _). repeat split.
  - intros Hnot. contradiction Hnot. apply Hvalid. reflexivity.
  - intros H. apply Hvalid in H. discriminate H.
  - intros _. repeat split. exists (err :: errs). repeat split.
Qed.

Lemma X6_ingest_collaborator_called_iff_valid_witness :
  fastapi.calls
    (main.post_api_ingest simulation_main.process_ingestion_request
       "https://github.com/facebook/react" (Some "ghp_token"))
  = [{| IngestRequest.repository_url := "https://github.com/facebook/react";
        IngestRequest.github_token := Some "ghp_token" |}]
  /\ fastapi.calls
       (main.post_api_ingest simulation_main.process_ingestion_request
          "https://github.com/facebook/react" (Some "abc"))
     = [].
Proof.
  split.
  - apply (proj1 (X6_ingest_collaborator_called_iff_valid
                    simulation_main.process_ingestion_request
                    "https://github.com/facebook/react" (Some "ghp_token"))).
    split; [|split; [cbn; lia | cbn; lia]].
    exists "facebook", "react", "", "". repeat split;
      try discriminate; left; reflexivity.
  - apply (proj2 (X6_ingest_collaborator_called_iff_valid
                    simulation_main.process_ingestion_request
                    "https://github.com/facebook/react" (Some "abc"))).
    intros [_ [_ Htoken]]. cbn in Htoken. lia.
Defined.

(** X7: [POST /api/chat], in the real application and in the simulation:
    a body of the accepted shape reaches the collaborator exactly once,
    as a request with exactly the body's fields; any other body is
    answered 422 and the collaborator is not called. *)
Theorem X7_chat_collaborator_called_iff_valid
    (collab : fastapi.collaborator ChatRequest.t ChatSuccessResponse.t)
    (message repository_id : string)
    (history : option (list ConversationEntry.t)) :
  let valid :=
    (1 <= String.length message <= 5000)%nat
    /\ Shapes.repository_id repository_id
    /\ Shapes.history history in
  let request :=
    {| ChatRequest.message := message;
       ChatRequest.repository_id := repository_id;
       ChatRequest.conversation_history := history |} in
  let real := main.post_api_chat collab message repository_id history in
  let simulated :=
    simulation_main.post_api_chat collab message repository_id history in
  (valid ->
   fastapi.calls real = [request] /\ fastapi.calls simulated = [request]
   /\ fastapi.stdout real = fst (collab request)
   /\ fastapi.stdout simulated = fst (collab request))
  /\ (~ valid ->
      fastapi.calls real = [] /\ fastapi.calls simulated = []
      /\ exists errs,
           fastapi.outcome real
           = Return (fastapi.request_validation_error errs)
           /\ fastapi.outcome simulated
              = Return (fastapi.request_validation_error errs)
           /\ status_code (fastapi.request_validation_error errs) = 422%Z).
Proof.
  cbv zeta. pose proof (chat_body_valid message repository_id history) as Hvalid.
  unfold main.post_api_chat, simulation_main.post_api_chat,
    routes.chat_with_repository, simulation_main.chat_with_repository.
  destruct (ChatRequest.errors message repository_id history)
    as [|err errs]; split.
  - intros _. destruct (collab _). repeat split.
  - intros Hnot. contradiction Hnot. apply Hvalid. reflexivity.
  - intros H. apply Hvalid in H. discriminate H.
  - intros _. repeat split. exists (err :: errs). repeat split.
Qed.

Lemma X7_chat_collaborator_called_iff_valid_witness :
  fastapi.calls
    (main.post_api_chat simulation_main.process_chat_request
       "Where is authentication handled?" "repo-a1b2c3d4" None)
  = [Contract.sample_chat]
  /\ fastapi.calls
       (main.post_api_chat simulation_main.process_chat_request
          "" "repo-a1b2c3d4" None)
     = [].
Proof.
  split.
  - apply (proj1 (X7_chat_collaborator_called_iff_valid
                    simulation_main.process_chat_request
                    "Where is authentication handled?" "repo-a1b2c3d4" None)).
    split; [cbn; lia|]. split; [|exact I].
    exists "a1b2c3d4". repeat split.
  - apply (proj2 (X7_chat_collaborator_called_iff_valid
                    simulation_main.process_chat_request
                    "" "repo-a1b2c3d4" None)).
    intros [Hmessage _]. cbn in Hmessage. lia.
Defined.

(** X8: a history of more than 10 entries makes [POST /api/chat] answer
    422, whatever the entries, the message and the [repository_id] are,
    in the real application and in the simulation; the collaborator is
    not called. *)
Theorem X8_long_history_is_answered_422
    (collab : fastapi.collaborator ChatRequest.t ChatSuccessResponse.t)
    (message repository_id : string) (items : list ConversationEntry.t) :
  (10 < List.length items)%nat ->
  let real := main.post_api_chat collab message repository_id (Some items) in
  let simulated :=
    simulation_main.post_api_chat collab message repository_id (Some items) in
  fastapi.calls real = [] /\ fastapi.calls simulated = []
  /\ exists errs,
       In {| loc := ["conversation_history"]; type_ := "too_long" |} errs
       /\ fastapi.outcome real = Return (fastapi.request_validation_error errs)
       /\ fastapi.outcome simulated
          = Return (fastapi.request_validation_error errs)
       /\ status_code (fastapi.request_validation_error errs) = 422%Z.
Proof.
  intros Hlong. cbv zeta.
  pose proof (@long_history_is_rejected message repository_id items Hlong)
    as Hin.
  unfold main.post_api_chat, simulation_main.post_api_chat.
  destruct (ChatRequest.errors message repository_id (Some items))
    as [|err errs].
  - contradiction Hin.
  - repeat split. exists (err :: errs). repeat split. exact Hin.
Qed.

Lemma X8_long_history_is_answered_422_witness :
  let entry :=
    {| ConversationEntry.role := "user"; ConversationEntry.content := "hi" |} in
  (10 < List.length (List.repeat entry 11))%nat
  /\ fastapi.calls
       (main.post_api_chat services.ChatService.process_query
          "Where is authentication handled?" "repo-a1b2c3d4"
          (Some (List.repeat entry 11)))
     = [].
Proof.
  cbv zeta. split; [cbn; lia|].
  apply (X8_long_history_is_answered_422
           services.ChatService.process_query
           "Where is authentication handled?" "repo-a1b2c3d4"
           (List.repeat
              {| ConversationEntry.role := "user";
                 ConversationEntry.content := "hi" |} 11)).
  cbn. lia.
Defined.

End ValidationGate.

(** ** The real application *)

Section RealApplication.

Import Contract models_repository models_chat.

(** X9: the real application answers every [POST /api/ingest]: a body of
    the accepted shape gets 501 / NOT_IMPLEMENTED with the handler's fixed
    text (the text the service raises is not shown), any other body gets
    422; it never answers 200 and prints nothing. *)
Theorem X9_real_ingest_answers_501_or_422
    (url : string) (token : option string) :
  let valid :=
    Shapes.github_url url /\ (String.length url <= 200)%nat
    /\ Shapes.token token in
  let exchange := main.app_post_api_ingest url token in
  fastapi.stdout exchange = []
  /\ exists response,
       fastapi.outcome exchange = Return response
       /\ status_code response <> 200%Z
       /\ ((valid
            /\ response
               = error_response 501 "Ingestion agent not yet implemented"
                   "NOT_IMPLEMENTED")
           \/ (~ valid /\ status_code response = 422%Z)).
Proof.
  cbv zeta. pose proof (ingest_body_valid url token) as Hvalid.
  unfold main.app_post_api_ingest, main.post_api_ingest.
  destruct (IngestRequest.errors url token) as [|err errs].
  - split; [reflexivity|]. eexists. split; [reflexivity|].
    split; [discriminate|]. left. split; [apply Hvalid|]; reflexivity.
  - split; [reflexivity|]. eexists. split; [reflexivity|].
    split; [discriminate|]. right. split; [|reflexivity].
    intros H. apply Hvalid in H. discriminate H.
Qed.

(** X10: the real application answers every [POST /api/chat]: a body of
    the accepted shape gets 501 / NOT_IMPLEMENTED with the handler's fixed
    text, any other body gets 422; it never answers 200. *)
Theorem X10_real_chat_answers_501_or_422
    (message repository_id : string)
    (history : option (list ConversationEntry.t)) :
  let valid :=
    (1 <= String.length message <= 5000)%nat
    /\ Shapes.repository_id repository_id
    /\ Shapes.history history in
  let exchange := main.app_post_api_chat message repository_id history in
  fastapi.stdout exchange = []
  /\ exists response,
       fastapi.outcome exchange = Return response
       /\ status_code response <> 200%Z
       /\ ((valid
            /\ response
               = error_response 501 "Chat agent not yet implemented"
                   "NOT_IMPLEMENTED")
           \/ (~ valid /\ status_code response = 422%Z)).
Proof.
  cbv zeta. pose proof (chat_body_valid message repository_id history) as Hvalid.
  unfold main.app_post_api_chat, main.post_api_chat.
  destruct (ChatRequest.errors message repository_id history) as [|err errs].
  - split; [reflexivity|]. eexists. split; [reflexivity|].
    split; [discriminate|]. left. split; [apply Hvalid|]; reflexivity.
  - split; [reflexivity|]. eexists. split; [reflexivity|].
    split; [discriminate|]. right. split; [|reflexivity].
    intros H. apply Hvalid in H. discriminate H.
Qed.



End RealApplication.

(** ** What the error handlers can answer *)

Section HandlerAnswers.

Import Contract error_handlers models_repository models_chat.

Lemma ingest_error_body_returns (m c : string)
    (body : IngestErrorResponse.t) :
  IngestErrorResponse.new m c = Return body ->
  IngestErrorResponse.dict body = error_body m c
  /\ (1 <= String.length m <= 1000)%nat /\ (1 <= String.length c <= 50)%nat.
Proof.
  unfold IngestErrorResponse.new. intros H.
  apply construct_returns in H. destruct H as [Herrs ->].
  unfold IngestErrorResponse.errors in Herrs.
  apply app_eq_nil in Herrs. destruct Herrs as [Hm Hc].
  apply check_length_ok in Hm. apply check_length_ok in Hc.
  split; [reflexivity | split; assumption].
Qed.

Lemma chat_error_body_returns (m c : string) (body : ChatErrorResponse.t) :
  ChatErrorResponse.new m c = Return body ->
  ChatErrorResponse.dict body = error_body m c
  /\ (1 <= String.length m <= 1000)%nat /\ (1 <= String.length c <= 50)%nat.
Proof.
  unfold ChatErrorResponse.new. intros H.
  apply construct_returns in H. destruct H as [Herrs ->].
  unfold ChatErrorResponse.errors in Herrs.
  apply app_eq_nil in Herrs. destruct Herrs as [Hm Hc].
  apply check_length_ok in Hm. apply check_length_ok in Hc.
  split; [reflexivity | split; assumption].
Qed.

Ltac answer_of H :=
  match type of H with
  | (body <- IngestErrorResponse.new ?m ?c ;; _) = Return _ =>
      let E := fresh "E" in
      destruct (IngestErrorResponse.new m c) as [body|] eqn:E;
      cbn [bind] in H; [|discriminate H];
      injection H as <-;
      apply ingest_error_body_returns in E;
      destruct E as [-> [? ?]]
  | (body <- ChatErrorResponse.new ?m ?c ;; _) = Return _ =>
      let E := fresh "E" in
      destruct (ChatErrorResponse.new m c) as [body|] eqn:E;
      cbn [bind] in H; [|discriminate H];
      injection H as <-;
      apply chat_error_body_returns in E;
      destruct E as [-> [? ?]]
  end.

(** X11: whatever exception [handle_ingestion_error] is given, a response
    it returns has one of the statuses that the ingestion route declares
    and a body [{success: false, error, error_code}] whose text has 1 to
    1000 characters and whose code has 1 to 50; the text is that of the
    exception or one of the handler's two fixed texts. *)
Theorem X11_ingestion_answers_are_declared (e : exn) (response : JSONResponse) :
  handle_ingestion_error e = Return response ->
  In (status_code response) declared.routes_ingestion
  /\ exists error error_code,
       content response = error_body error error_code
       /\ (1 <= String.length error <= 1000)%nat
       /\ (1 <= String.length error_code <= 50)%nat
       /\ (error = str e
           \/ error = "Ingestion agent not yet implemented"
           \/ error = generic_message Ingest).
Proof.
  unfold handle_ingestion_error. intros H.
  repeat match type of H with
         | (if isinstance e ?c then _ else _) = _ =>
             destruct (isinstance e c)
         end;
    answer_of H; cbn [status_code content];
    (split; [cbn; tauto|]);
    do 2 eexists; (split; [reflexivity|]);
    (split; [assumption|]); (split; [assumption|]);
    cbn; tauto.
Qed.

Lemma X11_ingestion_answers_are_declared_witness :
  handle_ingestion_error
    (Exn exceptions.InsufficientPermissionsError
       "Token lacks required repository permissions")
  = Return (error_response 403 "Token lacks required repository permissions"
              "INSUFFICIENT_PERMISSIONS")
  /\ In 403%Z declared.routes_ingestion.
Proof.
  split; [reflexivity|].
  exact (proj1 (X11_ingestion_answers_are_declared
                  (Exn exceptions.InsufficientPermissionsError
                     "Token lacks required repository permissions")
                  eq_refl)).
Defined.

(** X12: whatever exception [handle_chat_error] is given, a response it
    returns has one of the statuses that the chat route declares, though
    never 400, which the route declares too, and a body [{success: false,
    error, error_code}] whose text has 1 to 1000 characters and whose
    code has 1 to 50. *)
Theorem X12_chat_answers_are_declared (e : exn) (response : JSONResponse) :
  handle_chat_error e = Return response ->
  In (status_code response) declared.routes_chat
  /\ status_code response <> 400%Z
  /\ exists error error_code,
       content response = error_body error error_code
       /\ (1 <= String.length error <= 1000)%nat
       /\ (1 <= String.length error_code <= 50)%nat
       /\ (error = str e
           \/ error = "Chat agent not yet implemented"
           \/ error = generic_message Converse).
Proof.
  unfold handle_chat_error. intros H.
  repeat match type of H with
         | (if isinstance e ?c then _ else _) = _ =>
             destruct (isinstance e c)
         end;
    answer_of H; cbn [status_code content];
    (split; [cbn; tauto|]); (split; [discriminate|]);
    do 2 eexists; (split; [reflexivity|]);
    (split; [assumption|]); (split; [assumption|]);
    cbn; tauto.
Qed.

Lemma X12_chat_answers_are_declared_witness :
  handle_chat_error (Exn ConnectionError "Chat agent system is unavailable")
  = Return (error_response 500 "Chat agent system is unavailable"
              "AGENT_UNAVAILABLE")
  /\ In 500%Z declared.routes_chat.
Proof.
  split; [reflexivity|].
  exact (proj1 (X12_chat_answers_are_declared
                  (Exn ConnectionError "Chat agent system is unavailable")
                  eq_refl)).
Defined.

(** X13: [handle_ingestion_error] and [handle_chat_error] return a
    response exactly when the exception is taken by no branch that shows
    its text (the "not implemented" branch and the final [else] show a
    fixed text) or its text has 1 to 1000 characters; otherwise building
    the body raises. *)
Theorem X13_handlers_return_exactly_when (ep : endpoint) (e : exn) :
  returned (classifier ep e) = true
  <-> text_branch ep e = false
      \/ (1 <= String.length (str e) <= 1000)%nat.
Proof.
  rewrite classifier_returns_iff, orb_true_iff, negb_true_iff,
    length_between_iff.
  reflexivity.
Qed.

(** X14: a branch that shows the text of the exception shows it
    unchanged: when such a branch takes the exception and the handler
    returns, the [error] of the body is [str(error)]. *)
Theorem X14_named_branches_show_the_raised_text
    (ep : endpoint) (e : exn) (response : JSONResponse) :
  text_branch ep e = true ->
  classifier ep e = Return response ->
  field "error" (content response) = Some (JStr (str e))
  /\ field "success" (content response) = Some (JBool false).
Proof.
  intros Htext H. destruct ep; cbn [classifier text_branch] in *;
    unfold handle_ingestion_error, handle_chat_error in H;
    repeat match type of H with
           | (if isinstance e ?c then _ else _) = _ =>
               destruct (isinstance e c); cbn [orb] in Htext
           end;
    try discriminate Htext;
    answer_of H; split; reflexivity.
Qed.

Lemma X14_named_branches_show_the_raised_text_witness :
  text_branch Converse
    (Exn FileNotFoundError "Repository ID not found in system") = true
  /\ classifier Converse
       (Exn FileNotFoundError "Repository ID not found in system")
     = Return (error_response 404 "Repository ID not found in system"
                 "REPO_NOT_INDEXED")
  /\ field "error"
       (content (error_response 404 "Repository ID not found in system"
                   "REPO_NOT_INDEXED"))
     = Some (JStr "Repository ID not found in system").
Proof.
  split; [reflexivity|]. split; [reflexivity|].
  exact (proj1 (X14_named_branches_show_the_raised_text Converse
                  (Exn FileNotFoundError "Repository ID not found in system")
                  eq_refl eq_refl)).
Defined.

(** X23: the order of the tests protects the subclass: an instance of
    [InsufficientPermissionsError] is also an instance of
    [PermissionError], whose branch answers PRIVATE_REPO_NO_TOKEN, but
    [handle_ingestion_error] never gives it that answer. *)
Theorem X23_insufficient_permissions_is_not_private_repo
    (e : exn) (response : JSONResponse) :
  isinstance e exceptions.InsufficientPermissionsError = true ->
  handle_ingestion_error e = Return response ->
  isinstance e PermissionError = true
  /\ field "error_code" (content response)
     <> Some (JStr "PRIVATE_REPO_NO_TOKEN").
Proof.
  intros Hinstance H. split.
  - exact (@isinstance_up e exceptions.InsufficientPermissionsError
             PermissionError eq_refl Hinstance).
  - unfold handle_ingestion_error in H. rewrite Hinstance in H.
    repeat match type of H with
           | (if isinstance e ?c then _ else _) = _ =>
               destruct (isinstance e c)
           end;
      answer_of H; discriminate.
Qed.

Lemma X23_insufficient_permissions_is_not_private_repo_witness :
  let e :=
    Exn exceptions.InsufficientPermissionsError
      "Token lacks required repository permissions" in
  isinstance e exceptions.InsufficientPermissionsError = true
  /\ isinstance e PermissionError = true.
Proof.
  cbv zeta. split; [reflexivity|].
  exact (proj1 (X23_insufficient_permissions_is_not_private_repo
                  (Exn exceptions.InsufficientPermissionsError
                     "Token lacks required repository permissions")
                  eq_refl eq_refl)).
Defined.

Lemma ingest_answer_returns (m c : string) (status : Z)
    (response : JSONResponse) :
  (body <- IngestErrorResponse.new m c ;;
   Return {| status_code := status;
             content := IngestErrorResponse.dict body |}) = Return response ->
  response = error_response status m c.
Proof.
  intros H. destruct (IngestErrorResponse.new m c) as [body|] eqn:E;
    cbn [bind] in H; [|discriminate H].
  injection H as <-. apply ingest_error_body_returns in E.
  destruct E as [-> _]. reflexivity.
Qed.

Lemma chat_answer_returns (m c : string) (status : Z)
    (response : JSONResponse) :
  (body <- ChatErrorResponse.new m c ;;
   Return {| status_code := status;
             content := ChatErrorResponse.dict body |}) = Return response ->
  response = error_response status m c.
Proof.
  intros H. destruct (ChatErrorResponse.new m c) as [body|] eqn:E;
    cbn [bind] in H; [|discriminate H].
  injection H as <-. apply chat_error_body_returns in E.
  destruct E as [-> _]. reflexivity.
Qed.

(** X24: the error code decides the status: two responses of the
    handlers, of the same handler or one of each, that carry the same
    [error_code] have the same status. *)
Theorem X24_error_code_decides_the_status
    (ep ep' : endpoint) (e e' : exn) (response response' : JSONResponse) :
  classifier ep e = Return response ->
  classifier ep' e' = Return response' ->
  field "error_code" (content response)
  = field "error_code" (content response') ->
  status_code response = status_code response'.
Proof.
  intros H H'. destruct ep, ep'; cbn [classifier] in H, H';
    unfold handle_ingestion_error, handle_chat_error in H, H';
    repeat match type of H with
           | (if isinstance e ?c then _ else _) = _ =>
               destruct (isinstance e c)
           end;
    first [apply ingest_answer_returns in H | apply chat_answer_returns in H];
    repeat match type of H' with
           | (if isinstance e' ?c then _ else _) = _ =>
               destruct (isinstance e' c)
           end;
    first [apply ingest_answer_returns in H'
          | apply chat_answer_returns in H'];
    subst response response'; intros Hcode;
    first [reflexivity | discriminate Hcode].
Qed.

Lemma X24_error_code_decides_the_status_witness :
  status_code (error_response 501 "Ingestion agent not yet implemented"
                 "NOT_IMPLEMENTED")
  = status_code (error_response 501 "Chat agent not yet implemented"
                   "NOT_IMPLEMENTED").
Proof.
  exact (X24_error_code_decides_the_status Ingest Converse
           (Exn NotImplementedError "Ingestion agent integration pending")
           (Exn NotImplementedError "Chat agent integration pending")
           eq_refl eq_refl eq_refl).
Defined.

End HandlerAnswers.

(** ** The simulation *)

Section Simulation.

Import Contract models_repository models_chat.

Ltac decide_triggers :=
  repeat match goal with
         | |- context [if ?b then _ else _] =>
             lazymatch b with
             | isinstance _ _ => fail
             | _ => destruct b eqn:?
             end
         end.

(** X16: the simulated ingestion answers every request, validated or
    not: it prints one line naming the URL, no exception leaves the route
    function, and the status is 200 or one that the route declares;
    it is never 501. *)
Theorem X16_simulated_ingestion_always_answers (request : IngestRequest.t) :
  let exchange :=
    simulation_main.ingest_repository
      simulation_main.process_ingestion_request request in
  fastapi.stdout exchange
  = ["Simulating ingestion for: " ++ IngestRequest.repository_url request]
  /\ fastapi.calls exchange = [request]
  /\ exists response,
       fastapi.outcome exchange = Return response
       /\ (status_code response = 200%Z
           \/ In (status_code response) declared.simulation_ingest)
       /\ status_code response <> 501%Z.
Proof.
  cbv zeta.
  unfold simulation_main.ingest_repository,
    simulation_main.process_ingestion_request.
  cbn [fastapi.stdout fastapi.calls fastapi.outcome].
  split; [reflexivity|]. split; [reflexivity|].
  decide_triggers;
    (eexists; split; [reflexivity|]; split; [cbn; tauto | discriminate]).
Qed.

(** X20: the simulated chat answers every request, validated or not: no
    exception leaves the route function, and the status is 200 or one
    that the route declares, though never 400, which the route declares
    too. *)
Theorem X20_simulated_chat_always_answers (request : ChatRequest.t) :
  let exchange :=
    simulation_main.chat_with_repository
      simulation_main.process_chat_request request in
  fastapi.stdout exchange
  = ["Simulating chat for repo: " ++ ChatRequest.repository_id request]
  /\ fastapi.calls exchange = [request]
  /\ exists response,
       fastapi.outcome exchange = Return response
       /\ (status_code response = 200%Z
           \/ In (status_code response) declared.simulation_chat)
       /\ status_code response <> 400%Z.
Proof.
  cbv zeta.
  unfold simulation_main.chat_with_repository,
    simulation_main.process_chat_request.
  cbn [fastapi.stdout fastapi.calls fastapi.outcome].
  split; [reflexivity|]. split; [reflexivity|].
  destruct simulated_chat_payload as [payload Hpayload]. rewrite Hpayload.
  decide_triggers;
    (eexists; split; [reflexivity|]; split; [cbn; tauto | discriminate]).
Qed.

(** X17: the simulated ingestion returns a payload exactly when the URL
    contains none of "invalid-url", "not-found", "repo-too-large",
    "processing-failed", "storage-error" and "fail-processing", a URL
    that contains "private" comes with a non-empty token, and the token
    contains neither "invalid-token" nor "insufficient-permissions"; the
    payload then carries the identifier "repo-a1b2c3d4". *)
Theorem X17_simulated_ingestion_succeeds_iff (request : IngestRequest.t) :
  let url := IngestRequest.repository_url request in
  let token := IngestRequest.github_token request in
  let result := snd (simulation_main.process_ingestion_request request) in
  ((exists payload, result = Return payload)
   <-> Forall (fun word => Str.contains word url = false)
         ["invalid-url"; "not-found"; "repo-too-large"; "processing-failed";
          "storage-error"; "fail-processing"]
       /\ (Str.contains "private" url = true
           -> simulation_main.truthy token = true)
       /\ Forall (fun word => simulation_main.token_contains word token = false)
            ["invalid-token"; "insufficient-permissions"])
  /\ (forall payload,
        result = Return payload ->
        IngestSuccessResponse.repository_id payload = "repo-a1b2c3d4").
Proof.
  cbv zeta. split; [|intros payload; apply simulated_ingestion_id].
  unfold simulation_main.process_ingestion_request. cbn [snd].
  set (url := IngestRequest.repository_url request).
  set (token := IngestRequest.github_token request).
  split.
  - intros [payload H].
    repeat match type of H with
           | (if ?b then _ else _) = _ =>
               destruct b eqn:?; [discriminate H|]
           end.
    repeat match goal with
           | Hb : _ && _ = false |- _ => apply andb_false_iff in Hb
           end.
    split; [repeat constructor; assumption|]. split.
    + intros Hprivate.
      match goal with
      | Hb : Str.contains "private" url = false \/ _ |- _ =>
          destruct Hb as [Hb | Hb];
          [congruence | apply negb_false_iff in Hb; exact Hb]
      end.
    + repeat constructor;
        match goal with
        | Hb : simulation_main.truthy token = false \/
               simulation_main.token_contains ?w token = false
          |- simulation_main.token_contains ?w token = false =>
            destruct Hb as [Hb | Hb]; [|exact Hb];
            destruct token as [[|a t]|]; [reflexivity | discriminate Hb
                                         | reflexivity]
        end.
  - intros [Hurl [Hprivate Htoken]].
    repeat match goal with
           | Hf : Forall _ (_ :: _) |- _ =>
               let Hhead := fresh "Hhead" in
               apply Forall_cons_iff in Hf; destruct Hf as [Hhead Hf];
               rewrite ?Hhead
           end.
    rewrite !andb_false_r.
    destruct (Str.contains "private" url).
    + rewrite (Hprivate eq_refl). cbn [negb andb].
      repeat match goal with
             | Hb : simulation_main.token_contains _ token = false |- _ =>
                 rewrite Hb; clear Hb
             end.
      rewrite ?andb_false_r. eexists. reflexivity.
    + cbn [andb].
      repeat match goal with
             | Hb : simulation_main.token_contains _ token = false |- _ =>
                 rewrite Hb; clear Hb
             end.
      rewrite ?andb_false_r. eexists. reflexivity.
Qed.

Lemma valid_token_is_truthy (url : string) (token : string) :
  IngestRequest.errors url (Some token) = [] ->
  simulation_main.truthy (Some token) = true.
Proof.
  intros H. apply ingest_body_valid in H. destruct H as [_ [_ Htoken]].
  cbn [Shapes.token] in Htoken. destruct token; [cbn in Htoken; lia|].
  reflexivity.
Qed.

(** X18: for a valid body, the simulation answers 401 /
    PRIVATE_REPO_NO_TOKEN exactly when the body has no token and its URL
    contains "private" but neither "invalid-url" nor "not-found"; a
    token, which validation wants of 4 characters at least, always lifts
    this answer. *)
Theorem X18_private_repository_wants_a_token
    (url : string) (token : option string) :
  IngestRequest.errors url token = [] ->
  fastapi.outcome (simulation_main.app_post_api_ingest url token)
  = Return (error_response 401 "Private repository requires GitHub token"
              "PRIVATE_REPO_NO_TOKEN")
  <-> token = None
      /\ Str.contains "private" url = true
      /\ Str.contains "invalid-url" url = false
      /\ Str.contains "not-found" url = false.
Proof.
  intros Hvalid.
  assert (Htruthy : simulation_main.truthy token
                    = match token with Some _ => true | None => false end).
  { destruct token as [t|]; [|reflexivity].
    apply (@valid_token_is_truthy url t Hvalid). }
  unfold simulation_main.app_post_api_ingest, simulation_main.post_api_ingest.
  rewrite Hvalid.
  unfold simulation_main.ingest_repository,
    simulation_main.process_ingestion_request.
  cbn [fastapi.outcome IngestRequest.repository_url
       IngestRequest.github_token].
  rewrite Htruthy.
  destruct (Str.contains "invalid-url" url);
    [split; [discriminate | intros [_ [_ [H _]]]; discriminate H]|].
  destruct (Str.contains "not-found" url);
    [split; [discriminate | intros [_ [_ [_ H]]]; discriminate H]|].
  destruct (Str.contains "private" url); destruct token as [t|];
    cbn [andb negb].
  - split; [|intros [H _]; discriminate H].
    decide_triggers; discriminate.
  - split; [intros _; repeat split | reflexivity].
  - split; [|intros [H _]; discriminate H].
    decide_triggers; discriminate.
  - split; [|intros [_ [H _]]; discriminate H].
    decide_triggers; discriminate.
Qed.

Lemma X18_private_repository_wants_a_token_witness :
  IngestRequest.errors "https://github.com/foo/private-repo" None = []
  /\ fastapi.outcome
       (simulation_main.app_post_api_ingest
          "https://github.com/foo/private-repo" None)
     = Return (error_response 401 "Private repository requires GitHub token"
                 "PRIVATE_REPO_NO_TOKEN").
Proof.
  split; [reflexivity|].
  apply (proj2 (X18_private_repository_wants_a_token
                  "https://github.com/foo/private-repo" None eq_refl)).
  repeat split.
Defined.

(** X19: for a valid body, the simulated chat is decided by the message
    alone: 422 / QUERY_PROCESSING_FAILED when it contains
    "unprocessable", else 500 / AGENT_UNAVAILABLE when it contains
    "unavailable", else 200; the history and the identifier do not change
    the status. *)
Theorem X19_simulated_chat_is_decided_by_the_message
    (message repository_id : string)
    (history : option (list ConversationEntry.t)) :
  ChatRequest.errors message repository_id history = [] ->
  exists response,
    fastapi.outcome
      (simulation_main.app_post_api_chat message repository_id history)
    = Return response
    /\ status_code response
       = (if Str.contains "unprocessable" message then 422
          else if Str.contains "unavailable" message then 500
          else 200)%Z
    /\ (Str.contains "unprocessable" message = true ->
        response
        = error_response 422 "Query cannot be processed by agent system"
            "QUERY_PROCESSING_FAILED")
    /\ (Str.contains "unprocessable" message = false ->
        Str.contains "unavailable" message = true ->
        response
        = error_response 500 "Chat agent system is unavailable"
            "AGENT_UNAVAILABLE").
Proof.
  intros Hvalid.
  pose proof (@valid_id_is_not_the_trigger _ _ _ Hvalid) as Hid.
  destruct simulated_chat_payload as [payload Hpayload].
  unfold simulation_main.app_post_api_chat, simulation_main.post_api_chat.
  rewrite Hvalid.
  unfold simulation_main.chat_with_repository,
    simulation_main.process_chat_request.
  cbn [fastapi.outcome ChatRequest.repository_id ChatRequest.message].
  rewrite Hid, Hpayload.
  destruct (Str.contains "unprocessable" message);
    [|destruct (Str.contains "unavailable" message)];
    (eexists; split; [reflexivity|]; split; [reflexivity|]);
    split; intros; try reflexivity; discriminate.
Qed.

Lemma X19_simulated_chat_is_decided_by_the_message_witness :
  ChatRequest.errors "the agent is unavailable" "repo-a1b2c3d4" None = []
  /\ exists response,
       fastapi.outcome
         (simulation_main.app_post_api_chat "the agent is unavailable"
            "repo-a1b2c3d4" None)
       = Return response
       /\ status_code response = 500%Z.
Proof.
  split; [reflexivity|].
  destruct (X19_simulated_chat_is_decided_by_the_message
              "the agent is unavailable" "repo-a1b2c3d4" None eq_refl)
    as [response [Houtcome [Hstatus _]]].
  exists response. split; [exact Houtcome | exact Hstatus].
Defined.

End Simulation.

(** ** What the response models accept *)

Section AcceptedResponses.

Import pydantic models_repository models_chat.










End AcceptedResponses.
